(** * notebad: the Textbox widget (src/views/textbox.py)

    A shallow embedding of the parts of [Textbox] that carry logic: the
    snapshot stack behind undo/redo ([stackify], [undo], [redo]), the
    dirty flag set by [check_on_key], and the command proxy
    [_proxy_for_line_numbers] that turns widget commands into
    [<<Change>>] events.

    Python methods mutate [self] and may raise.  A method is therefore a
    function from the object's state to an outcome (a value or the
    exception raised) together with the state as the method left it:
    what was assigned before a [raise] stays assigned. *)

From Stdlib Require Import ZArith List Ascii String Bool Lia QArith.
Import ListNotations.
Local Open Scope string_scope.
Local Open Scope list_scope.
Local Open Scope Z_scope.

(** ** Exceptions and the method monad *)

Inductive exn : Type :=
| AttributeError (name : string)      (* 'Textbox' object has no attribute name *)
| IndexError                          (* deque index out of range *)
| UnboundLocalError (name : string)   (* local variable read before assignment *)
| TclError (msg : string).            (* raised by self.tk.call *)

Inductive Result (A : Type) : Type :=
| Ok (a : A)
| Raise (e : exn).
Arguments Ok {A} a.
Arguments Raise {A} e.

Definition M (S A : Type) : Type := S -> Result A * S.

Definition ret {S A : Type} (a : A) : M S A := fun s => (Ok a, s).

Definition raise {S A : Type} (e : exn) : M S A := fun s => (Raise e, s).

Definition bind {S A B : Type} (m : M S A) (k : A -> M S B) : M S B :=
  fun s =>
    match m s with
    | (Ok a, s') => k a s'
    | (Raise e, s') => (Raise e, s')
    end.

Definition gets {S A : Type} (f : S -> A) : M S A := fun s => (Ok (f s), s).

Definition modify {S : Type} (f : S -> S) : M S unit := fun s => (Ok tt, f s).

Definition lift {S A : Type} (r : Result A) : M S A := fun s => (r, s).

Declare Scope py_scope.
Delimit Scope py_scope with py.
Notation "x <- m ;; k" := (bind m (fun x => k))
  (at level 61, m at next level, right associativity) : py_scope.
Notation "m ;; k" := (bind m (fun _ => k))
  (at level 61, right associativity) : py_scope.
Local Open Scope py_scope.

(** The state a method leaves behind, and its outcome. *)
Definition exec {S A : Type} (m : M S A) (s : S) : S := snd (m s).
Definition outcome {S A : Type} (m : M S A) (s : S) : Result A := fst (m s).

Definition raised {A : Type} (r : Result A) : bool :=
  match r with Ok _ => false | Raise _ => true end.

(** ** collections.deque(maxlen = n) *)

Record deque : Type := mkDeque {
  items : list string;
  maxlen : nat
}.

Definition deque_new (n : nat) : deque := mkDeque [] n.

Definition len (d : deque) : Z := Z.of_nat (List.length (items d)).

(** [d.append(x)]: the item goes on the right; a deque longer than its
    [maxlen] then loses its leftmost item. *)
Definition deque_append (d : deque) (x : string) : deque :=
  let l := items d ++ [x] in
  mkDeque (if (maxlen d <? List.length l)%nat then tl l else l) (maxlen d).

(** [d[i]]: a negative index counts from the right; an index outside
    the deque raises IndexError. *)
Definition deque_getitem (d : deque) (i : Z) : Result string :=
  let j := if i <? 0 then i + len d else i in
  if (j <? 0) || (len d <=? j) then Raise IndexError
  else match nth_error (items d) (Z.to_nat j) with
       | Some x => Ok x
       | None => Raise IndexError
       end.

(** ** Configuration (conf.cf)

    The module conf is not part of the sources at hand; the values the
    class reads from it are fields of this record. *)
Record Conf : Type := mkConf {
  max_undo : nat;
  new_file_name : string;
  dev_mode : bool;
  enable_syntax_highlighting : bool
}.

(** ** The widget

    [text] is the content of the Tk text widget without the newline Tk
    keeps after the last line.  [tab_log] records the calls
    [self.tabs.set_properties(tk_name, text = title)], oldest first. *)
Record Textbox : Type := mkTextbox {
  text : string;
  stack : deque;
  stackcursor : Z;
  changed_since_saved : bool;
  _file_name : string;
  tk_name : string;
  tab_log : list (string * string)
}.

(** [Textbox.__init__], lines 28-37. *)
Definition Textbox_init (cf : Conf) : Textbox :=
  {| text := "";
     stack := deque_new (max_undo cf);
     stackcursor := 0;
     changed_since_saved := false;
     _file_name := new_file_name cf;
     tk_name := "";
     tab_log := [] |}.

Definition set_text (s : string) (tb : Textbox) : Textbox :=
  mkTextbox s (stack tb) (stackcursor tb) (changed_since_saved tb)
            (_file_name tb) (tk_name tb) (tab_log tb).

Definition set_stack (d : deque) (tb : Textbox) : Textbox :=
  mkTextbox (text tb) d (stackcursor tb) (changed_since_saved tb)
            (_file_name tb) (tk_name tb) (tab_log tb).

Definition set_stackcursor (c : Z) (tb : Textbox) : Textbox :=
  mkTextbox (text tb) (stack tb) c (changed_since_saved tb)
            (_file_name tb) (tk_name tb) (tab_log tb).

Definition set_changed_since_saved (b : bool) (tb : Textbox) : Textbox :=
  mkTextbox (text tb) (stack tb) (stackcursor tb) b
            (_file_name tb) (tk_name tb) (tab_log tb).

Definition log_tab (name title : string) (tb : Textbox) : Textbox :=
  mkTextbox (text tb) (stack tb) (stackcursor tb) (changed_since_saved tb)
            (_file_name tb) (tk_name tb) (tab_log tb ++ [(name, title)]).

(** *** tkinter.Text, as far as the class calls it

    [self.get("1.0", "end - 1c")]: everything but Tk's final newline. *)
Definition get_1_0_end_1c : M Textbox string := gets text.

(** [self.insert("0.0", s)]: Tk takes an index before the first line as
    the start of the text. *)
Definition insert_0_0 (s : string) : M Textbox unit :=
  modify (fun tb => set_text (s ++ text tb)%string tb).

(** [self.delete("1.0", "end")]: Tk keeps its final newline. *)
Definition delete_1_0_end : M Textbox unit := modify (set_text "").

(** ** Methods of Textbox *)

(** Lines 102-103. *)
Definition clear_all : M Textbox unit := delete_1_0_end.

(** Lines 129-131. *)
Definition stackify : M Textbox unit :=
  s <- get_1_0_end_1c ;;
  modify (fun tb => set_stack (deque_append (stack tb) s) tb) ;;
  c <- gets stackcursor ;;
  if c <? 9 then modify (set_stackcursor (c + 1)) else ret tt.

(** *** Calling a method through [self]

    [self.name()] looks [name] up when the call runs: in the object,
    then in its class and the bases of the class.  A class is given
    here by the methods without argument it binds, as far as they act
    on the state above.  What matters below is a name that is missing:
    the class body of Textbox defines [clear_all], and neither it nor
    tkinter.Text, its base, binds an attribute called clear.  A name
    that is not bound raises AttributeError. *)
Definition class_dict : Type := list (string * M Textbox unit).

Fixpoint getattr (cls : class_dict) (name : string) : option (M Textbox unit) :=
  match cls with
  | [] => None
  | (n, m) :: rest => if (n =? name)%string then Some m else getattr rest name
  end.

Definition call_method (cls : class_dict) (name : string) : M Textbox unit :=
  match getattr cls name with
  | Some m => m
  | None => raise (AttributeError name)
  end.

Definition Textbox_class : class_dict :=
  [("clear_all", clear_all); ("stackify", stackify)].

Section Methods.

(** The class the object is an instance of. *)
Variable cls : class_dict.

(** Lines 133-137. *)
Definition undo : M Textbox unit :=
  c <- gets stackcursor ;;
  if negb (c =? 0) then
    call_method cls "clear" ;;
    c <- gets stackcursor ;;
    (if c >? 0 then modify (set_stackcursor (c - 1)) else ret tt) ;;
    d <- gets stack ;;
    c <- gets stackcursor ;;
    s <- lift (deque_getitem d c) ;;
    insert_0_0 s
  else ret tt.

(** Lines 139-143. *)
Definition redo : M Textbox unit :=
  d <- gets stack ;;
  c <- gets stackcursor ;;
  if len d >? c + 1 then
    call_method cls "clear" ;;
    c <- gets stackcursor ;;
    (if c <? 9 then modify (set_stackcursor (c + 1)) else ret tt) ;;
    d <- gets stack ;;
    c <- gets stackcursor ;;
    s <- lift (deque_getitem d c) ;;
    insert_0_0 s
  else ret tt.

End Methods.

(** *** Key events

    A tkinter key event, as far as the handler and its callers tell
    events apart: [state] is the modifier mask, [keysym] names the key,
    [char] is the character the key produces (empty for a key that
    produces none). *)
Record Event : Type := mkEvent {
  state : Z;
  keysym : string;
  char : string
}.

(** The property [file_name], lines 64-66. *)
Definition file_name : M Textbox string := gets _file_name.

(** [self.tabs.set_properties(name, text = title)]: the tab bar is the
    parent widget; the call is recorded. *)
Definition tabs_set_properties (name title : string) : M Textbox unit :=
  modify (log_tab name title).

(** Lines 150-175.  [self.after(10, ...)] schedules the footer's
    position update and the syntax marker re-tags the text; both act on
    other objects and leave the fields of [Textbox] alone. *)
Definition check_on_key (event : Event) : M Textbox unit :=
  changed <- gets changed_since_saved ;;
  (if negb changed && (state event =? 16) then
     modify (set_changed_since_saved true) ;;
     name <- gets tk_name ;;
     fname <- file_name ;;
     tabs_set_properties name (fname ++ " *")%string
   else ret tt) ;;
  stackify.

(** ** Sequences of calls

    Tk runs one callback after the other; an exception that leaves a
    callback is reported and the next callback runs on the object as it
    was left.  [Edit s] stands for whatever changes the content of the
    widget between two calls (typing, loading a file). *)
Inductive op : Type :=
| Edit (s : string)
| Stackify
| Undo
| Redo.

Definition do_op (cls : class_dict) (o : op) : M Textbox unit :=
  match o with
  | Edit s => modify (set_text s)
  | Stackify => stackify
  | Undo => undo cls
  | Redo => redo cls
  end.

Fixpoint run (cls : class_dict) (ops : list op) (tb : Textbox)
  : list (Result unit) * Textbox :=
  match ops with
  | [] => ([], tb)
  | o :: rest =>
      let (r, tb1) := do_op cls o tb in
      let (rs, tb2) := run cls rest tb1 in
      (r :: rs, tb2)
  end.

(** The cursor after each call of a sequence. *)
Fixpoint cursor_history (cls : class_dict) (ops : list op) (tb : Textbox) : list Z :=
  match ops with
  | [] => []
  | o :: rest =>
      let tb1 := exec (do_op cls o) tb in
      stackcursor tb1 :: cursor_history cls rest tb1
  end.

(** A state is reachable when some sequence of calls leads to it from a
    freshly built widget. *)
Definition reachable (cf : Conf) (tb : Textbox) : Prop :=
  exists ops, snd (run Textbox_class ops (Textbox_init cf)) = tb.

(** The bound the specification puts on the cursor. *)
Definition cursor_in_bounds (tb : Textbox) : Prop :=
  0 <= stackcursor tb <= len (stack tb).

(** *** Key presses and saves

    The host clears [changed_since_saved] when it has saved the file;
    that assignment lives in the host's code. *)
Inductive input : Type :=
| KeyPress (e : Event)
| Saved.

(** Modelled from the spec: the save acknowledgement of the host, which
    is not in textbox.py, clears the flag and does nothing else to the
    widget. *)
Definition save_ack : M Textbox unit := modify (set_changed_since_saved false).

Definition do_input (i : input) : M Textbox unit :=
  match i with
  | KeyPress e => check_on_key e
  | Saved => save_ack
  end.

Fixpoint feed (ins : list input) (tb : Textbox) : Textbox :=
  match ins with
  | [] => tb
  | i :: rest => feed rest (exec (do_input i) tb)
  end.

Definition plain (e : Event) : bool := state e =? 16.

(** Keys that only move the insertion cursor. *)
Definition navigation_only (e : Event) : bool :=
  existsb (String.eqb (keysym e))
          ["Left"; "Right"; "Up"; "Down"; "Home"; "End"; "Prior"; "Next"]
  && (char e =? "")%string.

(** ** The command proxy

    Once the widget command is renamed, every command of the widget goes
    through [_proxy_for_line_numbers].  The proxy prints and generates
    events; both are recorded. *)
Inductive line : Type :=
| PrintExn (e : exn)
| PrintCmd (cmd : list string).

Record Console : Type := mkConsole {
  stdout : list line;
  generated : list string
}.

Definition console0 : Console := mkConsole [] [].

Definition print (l : line) : M Console unit :=
  modify (fun w => mkConsole (stdout w ++ [l]) (generated w)).

Definition event_generate (name : string) : M Console unit :=
  modify (fun w => mkConsole (stdout w) (generated w ++ [name])).

(** Equality of two tuples of strings. *)
Fixpoint tuple_eqb (a b : list string) : bool :=
  match a, b with
  | [], [] => true
  | x :: a', y :: b' => (x =? y)%string && tuple_eqb a' b'
  | _, _ => false
  end.

(** [args[0]] *)
Definition args_0 (args : list string) : Result string :=
  match args with
  | [] => Raise IndexError
  | a :: _ => Ok a
  end.

(** The condition of lines 294-300, [a0] being [args[0]]. *)
Definition is_change (a0 : string) (args : list string) : bool :=
  existsb (String.eqb a0) ["insert"; "replace"; "delete"]
  || tuple_eqb (firstn 3 args) ["mark"; "set"; "insert"]
  || tuple_eqb (firstn 2 args) ["xview"; "moveto"]
  || tuple_eqb (firstn 2 args) ["xview"; "scroll"]
  || tuple_eqb (firstn 2 args) ["yview"; "moveto"]
  || tuple_eqb (firstn 2 args) ["yview"; "scroll"].

(** The test as the proxy runs it: [args[0]] is read first. *)
Definition classify (args : list string) : Result bool :=
  match args_0 args with
  | Raise e => Raise e
  | Ok a0 => Ok (is_change a0 args)
  end.

Section Proxy.

Variable cf : Conf.

(** [self.tk.call(cmd)]: the renamed widget command, which answers or
    raises. *)
Variable tk_call : list string -> Result string.

(** [self._orig], the name the widget command was renamed to. *)
Variable _orig : string.

(** Lines 270-304.  The local [result] is bound only when the call of
    line 284 or 289 returns. *)
Definition _proxy_for_line_numbers (args : list string) : M Console string :=
  let cmd := _orig :: args in
  result <- (if dev_mode cf then
               match tk_call cmd with
               | Ok r => ret (Some r)
               | Raise e => print (PrintExn e) ;; print (PrintCmd cmd) ;; ret None
               end
             else
               r <- lift (tk_call cmd) ;; ret (Some r)) ;;
  changed <- lift (classify args) ;;
  (if changed then event_generate "<<Change>>" else ret tt) ;;
  match result with
  | Some r => ret r
  | None => raise (UnboundLocalError "result")
  end.

End Proxy.

(** ** File meta data (lines 56-84)

    [full_path] and [file_path] are attributes of the widget next to
    the ones of [Textbox]; [tab_calls] records the calls
    [self.tabs.tab(name, text = title)], oldest first. *)
Record Tabbed : Type := mkTabbed {
  box : Textbox;
  full_path : string;
  file_path : string;
  tab_calls : list (string * string)
}.

(** [Textbox.__init__], lines 28-32. *)
Definition Tabbed_init (cf : Conf) : Tabbed :=
  mkTabbed (Textbox_init cf) "" "" [].

Definition set_tk_name (s : string) (tb : Textbox) : Textbox :=
  mkTextbox (text tb) (stack tb) (stackcursor tb) (changed_since_saved tb)
            (_file_name tb) s (tab_log tb).

Definition set__file_name (s : string) (tb : Textbox) : Textbox :=
  mkTextbox (text tb) (stack tb) (stackcursor tb) (changed_since_saved tb)
            s (tk_name tb) (tab_log tb).

Definition set_box (f : Textbox -> Textbox) (t : Tabbed) : Tabbed :=
  mkTabbed (f (box t)) (full_path t) (file_path t) (tab_calls t).

Definition set_full_path (s : string) (t : Tabbed) : Tabbed :=
  mkTabbed (box t) s (file_path t) (tab_calls t).

Definition set_file_path (s : string) (t : Tabbed) : Tabbed :=
  mkTabbed (box t) (full_path t) s (tab_calls t).

(** [self.tabs.tab(name, text = title)]: the call is recorded; what the
    tab bar makes of it is the tab bar's. *)
Definition tabs_tab (name title : string) : M Tabbed unit :=
  modify (fun t => mkTabbed (box t) (full_path t) (file_path t)
                            (tab_calls t ++ [(name, title)])).

(** The setter of the property [file_name], lines 68-72. *)
Definition file_name_setter (file_name : string) : M Tabbed unit :=
  modify (set_box (set__file_name file_name)) ;;
  name <- gets (fun t => tk_name (box t)) ;;
  tabs_tab name file_name.

(** [x if x else y] for an argument that is a string or None: None and
    the empty string are false. *)
Definition if_else (x : option string) (y : string) : string :=
  match x with
  | None => y
  | Some s => if (s =? "")%string then y else s
  end.

(** Lines 78-84.  The assignment to [self.file_name] goes through the
    setter whether or not a name was given. *)
Definition set_meta (file_path0 file_name0 full_path0 tk_name0 : option string)
  : M Tabbed unit :=
  cur <- gets (fun t => tk_name (box t)) ;;
  modify (set_box (set_tk_name (if_else tk_name0 cur))) ;;
  cur <- gets file_path ;;
  modify (set_file_path (if_else file_path0 cur)) ;;
  cur <- gets (fun t => _file_name (box t)) ;;
  file_name_setter (if_else file_name0 cur) ;;
  cur <- gets full_path ;;
  modify (set_full_path (if_else full_path0 cur)).

(** ** Blank widgets (lines 56-62) *)

Definition newline : string := String (Ascii.ascii_of_nat 10) "".

(** [self.get(1.0, 'end')]: the content with Tk's final newline. *)
Definition get_1_0_end : M Textbox string :=
  gets (fun tb => (text tb ++ newline)%string).

(** The property [is_blank]. *)
Definition is_blank : M Textbox bool :=
  s <- get_1_0_end ;; ret (s =? newline)%string.

(** ** Scrollbars (lines 178-195, 236-243)

    [horiz_calls] records what the horizontal scrollbar is told:
    [pack_forget()] or [pack(...)]. *)
Inductive pack_call : Type :=
| pack
| pack_forget.

Record Scrollbars : Type := mkScrollbars {
  vert_scroll_visible : bool;
  horiz_scroll_visible : bool;
  horiz_calls : list pack_call
}.

(** The flags as [_make_scrollbars] sets them; it packs the vertical
    scrollbar only. *)
Definition Scrollbars_init : Scrollbars := mkScrollbars false false [].

Definition set_horiz_scroll_visible (b : bool) (s : Scrollbars) : Scrollbars :=
  mkScrollbars (vert_scroll_visible s) b (horiz_calls s).

Definition horiz_scroll_call (c : pack_call) : M Scrollbars unit :=
  modify (fun s => mkScrollbars (vert_scroll_visible s) (horiz_scroll_visible s)
                                (horiz_calls s ++ [c])).

(** Lines 178-195.  [hori_bar] is what [self.horiz_scroll.get()]
    answers: the two ends of the visible part, as fractions of the
    whole.  Line 194 compares the flag with True and assigns nothing. *)
Definition hide_unused_scrollbars (hori_bar : Q * Q) : M Scrollbars unit :=
  if Qeq_bool (fst hori_bar) (0 # 1) && Qeq_bool (snd hori_bar) (1 # 1) then
    v <- gets horiz_scroll_visible ;;
    if Bool.eqb v true then
      modify (set_horiz_scroll_visible false) ;;
      horiz_scroll_call pack_forget
    else ret tt
  else
    v <- gets horiz_scroll_visible ;;
    if Bool.eqb v false then
      v' <- gets horiz_scroll_visible ;;
      _ <- ret (Bool.eqb v' true) ;;
      horiz_scroll_call pack
    else ret tt.

(** The calls of [hide_unused_scrollbars] for the answers [bars], one
    after the other. *)
Fixpoint hide_each (bars : list (Q * Q)) (s : Scrollbars) : Scrollbars :=
  match bars with
  | [] => s
  | b :: rest => hide_each rest (exec (hide_unused_scrollbars b) s)
  end.

(** The answer of a scrollbar whose widget shows everything. *)
Definition shows_all (hori_bar : Q * Q) : bool :=
  Qeq_bool (fst hori_bar) (0 # 1) && Qeq_bool (snd hori_bar) (1 # 1).

(** ** The selection (lines 94-114)

    [sel_ranges] is what [self.tag_ranges('sel')] answers: the ranges
    of characters tagged sel, in order, each from its first character
    to just after its last, as offsets into the content followed by
    Tk's final newline. *)
Record Selecting : Type := mkSelecting {
  sel_box : Textbox;
  sel_ranges : list (nat * nat)
}.

(** The index sel.first: Tk refuses it when nothing is tagged. *)
Definition sel_first : M Selecting nat :=
  r <- gets sel_ranges ;;
  match r with
  | [] => raise (TclError "text doesn't contain any characters tagged with sel")
  | (i, _) :: _ => ret i
  end.

(** The index sel.last. *)
Definition sel_last : M Selecting nat :=
  r <- gets sel_ranges ;;
  match r with
  | [] => raise (TclError "text doesn't contain any characters tagged with sel")
  | p :: rest => ret (snd (last rest p))
  end.

(** [self.get(index1, index2)] for two offsets. *)
Definition get_range (i j : nat) : M Selecting string :=
  gets (fun w => substring i (j - i) (text (sel_box w) ++ newline)%string).

(** Lines 94-100. *)
Definition get_selection : M Selecting string :=
  r <- gets sel_ranges ;;
  match r with
  | [] => ret ""
  | _ :: _ => i <- sel_first ;; j <- sel_last ;; get_range i j
  end.

(** Lines 109-111: [self.tag_add('sel', 1.0, 'end')] tags every
    character, Tk's final newline included. *)
Definition select_all : M Selecting unit :=
  modify (fun w => mkSelecting (sel_box w)
                     [(0%nat, S (String.length (text (sel_box w))))]).

Section Selection.

(** [self.delete(index1, index2)] of tkinter.Text for two offsets:
    what Tk makes of the content and of the tags. *)
Variable tk_delete : nat -> nat -> Selecting -> Selecting.

(** Lines 113-114. *)
Definition delete_selection : M Selecting unit :=
  i <- sel_first ;;
  j <- sel_last ;;
  modify (tk_delete i j).

End Selection.

(** ** Leading spaces (lines 345-351)

    An index is an offset into the content followed by Tk's final
    newline; [index + 1c] is the next offset.  [self.get(index)] is the
    character there, and the empty string past the end. *)
Definition get_char (index : nat) : M Textbox string :=
  gets (fun tb => substring index 1 (text tb ++ newline)%string).

(** Lines 345-351; the loop runs at most [fuel] times. *)
Fixpoint getIndex (fuel index : nat) : M Textbox (option nat) :=
  match fuel with
  | O => ret None
  | S fuel' =>
      c <- get_char index ;;
      if (c =? " ")%string then getIndex fuel' (index + 1)%nat
      else ret (Some index)
  end.

(** ** Line numbers (class TextLineNumbers, lines 355-398) *)

Definition digit (d : nat) : string :=
  String (Ascii.ascii_of_nat (48 + d)) "".

(** [str(n)] for a number that is not negative. *)
Fixpoint str_fuel (fuel n : nat) : string :=
  match fuel with
  | O => ""
  | S fuel' =>
      if (n <? 10)%nat then digit n
      else (str_fuel fuel' (n / 10) ++ digit (n mod 10))%string
  end.

Definition str (n : nat) : string := str_fuel (S n) n.

(** An index of the text: line and character. *)
Definition tk_index : Type := (nat * nat)%type.

(** What [create_text] puts on the canvas. *)
Record Label : Type := mkLabel {
  label_x : Z;
  label_y : Z;
  label_text : string;
  label_size : Z
}.

(** The tuple [dlineinfo] answers: x, y, width, height, baseline. *)
Definition dline : Type := (Z * Z * Z * Z * Z)%type.

Definition dline_1 (d : dline) : Z :=
  match d with (_, y, _, _, _) => y end.

Section LineNumbers.

(** The text widget the canvas is attached to:
    [index("@0,0")], [dlineinfo(i)] and [index("%s+1line" % i)]. *)
Variable index_at_0_0 : tk_index.
Variable dlineinfo : tk_index -> option dline.
Variable plus_1line : tk_index -> tk_index.

(** The body of the loop, lines 379-396, for a line that is shown. *)
Definition line_label (i : tk_index) (d : dline) : Label :=
  let y := dline_1 d - 2 in
  let linenum := str (fst i) in
  let size := if (4 <? String.length linenum)%nat then 7 else 10 in
  mkLabel 2 y linenum size.

(** Lines 373-398; the loop runs at most [fuel] times, and None says
    that it did not come to its end. *)
Fixpoint redraw_loop (fuel : nat) (i : tk_index) (canvas : list Label)
  : option (list Label) :=
  match fuel with
  | O => None
  | S fuel' =>
      match dlineinfo i with
      | None => Some canvas
      | Some d => redraw_loop fuel' (plus_1line i) (canvas ++ [line_label i d])
      end
  end.

(** Lines 367-398: [self.delete("all")] empties the canvas first. *)
Definition redraw (fuel : nat) (canvas : list Label) : option (list Label) :=
  redraw_loop fuel index_at_0_0 [].

(** The index the loop looks at in its k-th round. *)
Definition round_index (k : nat) : tk_index := Nat.iter k plus_1line index_at_0_0.

End LineNumbers.

(** ** The line of the insertion cursor (lines 90-92)

    [insert_mark] is the offset of the mark insert in the content; the
    mark never lies behind Tk's final newline. *)
Record Cursored : Type := mkCursored {
  cur_box : Textbox;
  insert_mark : nat
}.

Definition is_newline (c : ascii) : bool := Ascii.eqb c (ascii_of_nat 10).

(** The characters of a list before its first newline. *)
Fixpoint until_newline (l : list ascii) : list ascii :=
  match l with
  | [] => []
  | c :: rest => if is_newline c then [] else c :: until_newline rest
  end.

(** The characters of a list behind its last newline. *)
Definition after_newline (l : list ascii) : list ascii :=
  rev (until_newline (rev l)).

(** The characters of the widget, Tk's final newline included. *)
Definition chars (w : Cursored) : list ascii :=
  list_ascii_of_string (text (cur_box w) ++ newline).

(** Lines 90-92: [self.get('insert linestart', 'insert lineend')].
    linestart is the first character of the line of the mark, lineend
    the newline that ends it, and [get] stops before its second
    index. *)
Definition get_current_line_text : M Cursored string :=
  gets (fun w =>
          string_of_list_ascii
            (after_newline (firstn (insert_mark w) (chars w))
             ++ until_newline (skipn (insert_mark w) (chars w)))).

Definition cursor_in_second_line : Cursored :=
  mkCursored (mkTextbox (String "a" (String "b" newline ++ "cdef")) (mkDeque [] 10) 0
                        false "Untitled" "" [])
             5.

(** ** More vocabulary *)

(** The calls that are neither [undo] nor [redo]. *)
Definition not_undo_redo (o : op) : bool :=
  match o with
  | Undo | Redo => false
  | _ => true
  end.

Definition is_key (i : input) : bool :=
  match i with
  | KeyPress _ => true
  | Saved => false
  end.

(** The part of the text that lies before the line, the leading spaces
    of a line and what follows them. *)
Definition spaces (n : nat) : string :=
  string_of_list_ascii (repeat " "%char n).

(** ** Vocabulary of the statements *)

(** The last [n] items of a list. *)
Definition lastn {A : Type} (n : nat) (l : list A) : list A :=
  skipn (List.length l - n) l.

(** The calls that record the texts [texts], one after the other: the
    content becomes the text, then [stackify] runs. *)
Definition recording (texts : list string) : list op :=
  flat_map (fun t => [Edit t; Stackify]) texts.

(** What every call keeps when the capacity is at least 9. *)
Definition history_ok (cf : Conf) (tb : Textbox) : Prop :=
  0 <= stackcursor tb <= len (stack tb)
  /\ stackcursor tb <= 9
  /\ maxlen (stack tb) = max_undo cf
  /\ (List.length (items (stack tb)) <= maxlen (stack tb))%nat.

(** The title the handler hands to the tab bar. *)
Definition dirty_title (tb : Textbox) : string * string :=
  (tk_name tb, (_file_name tb ++ " *")%string).

(** The commands that count as a change: the operation is insert,
    replace or delete, or the command starts with one of the five
    listed prefixes. *)
Definition change_op (args : list string) : Prop :=
  (exists rest, args = "insert" :: rest)
  \/ (exists rest, args = "replace" :: rest)
  \/ (exists rest, args = "delete" :: rest)
  \/ (exists rest, args = "mark" :: "set" :: "insert" :: rest)
  \/ (exists rest, args = "xview" :: "moveto" :: rest)
  \/ (exists rest, args = "xview" :: "scroll" :: rest)
  \/ (exists rest, args = "yview" :: "moveto" :: rest)
  \/ (exists rest, args = "yview" :: "scroll" :: rest).

(** A class like Textbox that also binds clear, to what [clear_all]
    does.  Textbox is not this class. *)
Definition clear_bound_class : class_dict := ("clear", clear_all) :: Textbox_class.

(** ** Configurations, widgets and events of the examples *)

Definition cf3 : Conf := mkConf 3 "Untitled" false false.
Definition cf10 : Conf := mkConf 10 "Untitled" false false.
Definition cfdev : Conf := mkConf 10 "Untitled" true false.

Definition tb_one : Textbox :=
  mkTextbox "ab" (mkDeque ["a"] 10) 1 false "Untitled" "" [].

Definition tb_three : Textbox :=
  mkTextbox "b" (mkDeque ["a"; "b"; "c"] 10) 1 false "Untitled" "" [].

Definition tb_zero : Textbox :=
  mkTextbox "ab" (mkDeque ["a"; "ab"] 10) 0 false "Untitled" "" [].

Definition tb_last : Textbox :=
  mkTextbox "c" (mkDeque ["a"; "b"; "c"] 10) 2 false "Untitled" "" [].

(** Three texts recorded, two undone, then a key pressed and typed. *)
Definition edit_after_undo : list op :=
  [Edit "a"; Stackify; Edit "b"; Stackify; Edit "c"; Stackify;
   Undo; Undo; Stackify; Edit "bx"].

Definition key_a : Event := mkEvent 16 "a" "a".
Definition left_arrow : Event := mkEvent 16 "Left" "".
Definition ctrl_left : Event := mkEvent 20 "Left" "".

Definition tk_ok (cmd : list string) : Result string := Ok "".

Definition tk_bad (cmd : list string) : Result string :=
  Raise (TclError "bad text index").

(** An argument that is None or the empty string. *)
Definition not_given (x : option string) : Prop := x = None \/ x = Some "".

Definition tabbed_file : Tabbed :=
  mkTabbed (mkTextbox "x = 1" (mkDeque [] 10) 0 false "a.py" "tab1" [])
           "/home/u/a.py" "/home/u" [].

Definition no_selection : Selecting :=
  mkSelecting (mkTextbox "hello world" (mkDeque [] 10) 0 false "Untitled" "" []) [].

Definition selected_world : Selecting :=
  mkSelecting (mkTextbox "hello world" (mkDeque [] 10) 0 false "Untitled" "" [])
              [(6%nat, 11%nat)].

Definition indented_line : Textbox :=
  mkTextbox "if x:    y = 1" (mkDeque [] 10) 0 false "Untitled" "" [].

(** A view of three lines of a text of five: 17 pixels a line, lines 2
    to 4 shown. *)
Definition view_first : tk_index := (2%nat, 0%nat).

Definition view_dlineinfo (i : tk_index) : option dline :=
  if (fst i <? 5)%nat
  then Some (5, 5 + 17 * (Z.of_nat (fst i) - 2), 80, 17, 13)
  else None.

Definition view_plus_1line (i : tk_index) : tk_index :=
  (Nat.min (S (fst i)) 6, snd i).

(** The label of the k-th round of the loop of [redraw], for a round
    whose line is shown. *)
Definition round_label (first : tk_index) (dlineinfo : tk_index -> option dline)
           (plus_1line : tk_index -> tk_index) (k : nat) : Label :=
  match dlineinfo (round_index first plus_1line k) with
  | Some d => line_label (round_index first plus_1line k) d
  | None => mkLabel 0 0 "" 0
  end.

(** * Properties *)

(** ** Undo and redo *)

Lemma getattr_clear_Textbox : getattr Textbox_class "clear" = None.
Proof. reflexivity. Qed.

Lemma undo_at_zero (cls : class_dict) (tb : Textbox) :
  stackcursor tb = 0 -> undo cls tb = (Ok tt, tb).
Proof.
  intros H. unfold undo, bind, gets. rewrite H. reflexivity.
Qed.

Lemma redo_at_end (cls : class_dict) (tb : Textbox) :
  len (stack tb) <= stackcursor tb + 1 -> redo cls tb = (Ok tt, tb).
Proof.
  intros H. unfold redo, bind, gets.
  destruct (len (stack tb) >? stackcursor tb + 1) eqn:E; [|reflexivity].
  apply Z.gtb_lt in E. lia.
Qed.

Lemma undo_unbound (cls : class_dict) (tb : Textbox) :
  getattr cls "clear" = None -> stackcursor tb <> 0 ->
  undo cls tb = (Raise (AttributeError "clear"), tb).
Proof.
  intros Hc H. unfold undo, bind, gets, call_method. rewrite Hc.
  destruct (stackcursor tb =? 0) eqn:E; [apply Z.eqb_eq in E; contradiction|].
  reflexivity.
Qed.

Lemma redo_unbound (cls : class_dict) (tb : Textbox) :
  getattr cls "clear" = None -> stackcursor tb + 1 < len (stack tb) ->
  redo cls tb = (Raise (AttributeError "clear"), tb).
Proof.
  intros Hc H. unfold redo, bind, gets, call_method. rewrite Hc.
  destruct (len (stack tb) >? stackcursor tb + 1) eqn:E; [reflexivity|].
  rewrite Z.gtb_ltb in E. apply Z.ltb_ge in E. lia.
Qed.

(** C1, as the code runs: with a cursor other than 0, [undo] stops at
    its first statement, the call [self.clear()], with AttributeError;
    the cursor is not decremented and no snapshot is inserted: the
    widget is left as it was. *)
Theorem undo_nonzero_cursor_raises (tb : Textbox) :
  stackcursor tb <> 0 ->
  undo Textbox_class tb = (Raise (AttributeError "clear"), tb).
Proof. apply undo_unbound. reflexivity. Qed.

Lemma undo_nonzero_cursor_raises_witness :
  stackcursor tb_one <> 0 /\
  undo Textbox_class tb_one = (Raise (AttributeError "clear"), tb_one).
Proof.
  split; [discriminate | apply (undo_nonzero_cursor_raises tb_one); discriminate].
Defined.

(** C2, as the code runs: when cursor + 1 is an index of the stack,
    [redo] stops at the call [self.clear()] with AttributeError; the
    cursor is not incremented and the text is not replaced. *)
Theorem redo_in_range_raises (tb : Textbox) :
  stackcursor tb + 1 < len (stack tb) ->
  redo Textbox_class tb = (Raise (AttributeError "clear"), tb).
Proof. apply redo_unbound. reflexivity. Qed.

Lemma redo_in_range_raises_witness :
  stackcursor tb_three + 1 < len (stack tb_three) /\
  redo Textbox_class tb_three = (Raise (AttributeError "clear"), tb_three).
Proof.
  split; [reflexivity | apply (redo_in_range_raises tb_three); reflexivity].
Defined.

(** As the code runs: with the cursor strictly between 0 and the
    number of snapshots, [undo()] followed by [redo()] is over with the
    AttributeError of [undo]; run as two callbacks, [undo] raises and
    [redo] raises or does nothing.  No snapshot is ever put back. *)
Theorem undo_then_redo_raises (tb : Textbox) :
  0 < stackcursor tb < len (stack tb) ->
  (undo Textbox_class ;; redo Textbox_class) tb
    = (Raise (AttributeError "clear"), tb)
  /\ exists r, run Textbox_class [Undo; Redo] tb
               = ([Raise (AttributeError "clear"); r], tb).
Proof.
  intros [H0 H1].
  assert (Hu : undo Textbox_class tb = (Raise (AttributeError "clear"), tb))
    by (apply undo_unbound; [reflexivity | lia]).
  split.
  - unfold bind at 1. rewrite Hu. reflexivity.
  - simpl. rewrite Hu.
    destruct (Z_lt_le_dec (stackcursor tb + 1) (len (stack tb))) as [Hl|Hl].
    + rewrite (redo_unbound Textbox_class tb eq_refl Hl). eauto.
    + rewrite (redo_at_end Textbox_class tb Hl). eauto.
Qed.

Lemma undo_then_redo_raises_witness :
  0 < stackcursor tb_three < len (stack tb_three) /\
  (undo Textbox_class ;; redo Textbox_class) tb_three
    = (Raise (AttributeError "clear"), tb_three).
Proof.
  split; [split; reflexivity|].
  apply (undo_then_redo_raises tb_three). split; reflexivity.
Defined.

(** ** Recording snapshots *)

Lemma stackify_eq (tb : Textbox) :
  stackify tb =
  (Ok tt,
   let tb1 := set_stack (deque_append (stack tb) (text tb)) tb in
   if stackcursor tb <? 9 then set_stackcursor (stackcursor tb + 1) tb1 else tb1).
Proof.
  unfold stackify, bind, gets, modify, get_1_0_end_1c, ret. simpl.
  destruct (stackcursor tb <? 9); reflexivity.
Qed.

Lemma stackify_cursor (tb : Textbox) :
  stackcursor (exec stackify tb) =
  if stackcursor tb <? 9 then stackcursor tb + 1 else stackcursor tb.
Proof.
  unfold exec. rewrite stackify_eq. simpl.
  destruct (stackcursor tb <? 9); reflexivity.
Qed.

Lemma stackify_stack (tb : Textbox) :
  stack (exec stackify tb) = deque_append (stack tb) (text tb).
Proof.
  unfold exec. rewrite stackify_eq. simpl.
  destruct (stackcursor tb <? 9); reflexivity.
Qed.

Lemma skipn_past_prefix {A : Type} (p r : list A) (j : nat) :
  skipn (List.length p + j) (p ++ r) = skipn j r.
Proof.
  induction p as [|a p IH]; simpl; [reflexivity | exact IH].
Qed.

Lemma lastn_all {A : Type} (n : nat) (l : list A) :
  (List.length l <= n)%nat -> lastn n l = l.
Proof.
  intros H. unfold lastn. replace (List.length l - n)%nat with 0%nat by lia.
  reflexivity.
Qed.

Lemma lastn_length {A : Type} (n : nat) (l : list A) :
  List.length (lastn n l) = Nat.min n (List.length l).
Proof. unfold lastn. rewrite length_skipn. lia. Qed.

Lemma lastn_app_lastn {A : Type} (n : nat) (a b : list A) :
  lastn n (lastn n a ++ b) = lastn n (a ++ b).
Proof.
  destruct (Nat.le_gt_cases (List.length a) n) as [H|H].
  - rewrite (lastn_all n a H). reflexivity.
  - unfold lastn.
    set (k := (List.length a - n)%nat).
    assert (Hk : List.length (skipn k a) = n) by (rewrite length_skipn; lia).
    assert (Hf : List.length (firstn k a) = k) by (rewrite length_firstn; lia).
    rewrite !length_app, Hk.
    replace (a ++ b) with (firstn k a ++ (skipn k a ++ b))
      by (rewrite app_assoc, firstn_skipn; reflexivity).
    replace (List.length a + List.length b - n)%nat
      with (List.length (firstn k a) + List.length b)%nat by lia.
    rewrite skipn_past_prefix.
    replace (n + List.length b - n)%nat with (List.length b) by lia.
    reflexivity.
Qed.

Lemma deque_append_items (d : deque) (x : string) :
  (List.length (items d) <= maxlen d)%nat ->
  items (deque_append d x) = lastn (maxlen d) (items d ++ [x]).
Proof.
  intros H. unfold deque_append, lastn. simpl.
  rewrite length_app. simpl.
  destruct (Nat.ltb_spec (maxlen d) (List.length (items d) + 1)) as [L|L].
  - replace (List.length (items d) + 1 - maxlen d)%nat with 1%nat by lia.
    reflexivity.
  - replace (List.length (items d) + 1 - maxlen d)%nat with 0%nat by lia.
    reflexivity.
Qed.

Lemma deque_append_maxlen (d : deque) (x : string) :
  maxlen (deque_append d x) = maxlen d.
Proof. reflexivity. Qed.

Lemma deque_append_bounded (d : deque) (x : string) :
  (List.length (items d) <= maxlen d)%nat ->
  (List.length (items (deque_append d x)) <= maxlen (deque_append d x))%nat.
Proof.
  intros H. rewrite deque_append_items by exact H.
  rewrite lastn_length. simpl. lia.
Qed.

Lemma recording_stack (cls : class_dict) (texts : list string) :
  forall tb : Textbox,
    (List.length (items (stack tb)) <= maxlen (stack tb))%nat ->
    items (stack (snd (run cls (recording texts) tb)))
    = lastn (maxlen (stack tb)) (items (stack tb) ++ texts).
Proof.
  induction texts as [|t texts IH]; intros tb Hb.
  - simpl. rewrite app_nil_r. symmetry. apply lastn_all. exact Hb.
  - cbn [recording flat_map app run do_op].
    unfold modify at 1.
    rewrite stackify_eq.
    cbv zeta.
    set (tb1 := if stackcursor (set_text t tb) <? 9 then _ else _).
    assert (Hs : stack tb1 = deque_append (stack tb) t).
    { subst tb1. destruct (stackcursor (set_text t tb) <? 9); reflexivity. }
    specialize (IH tb1).
    fold (recording texts).
    destruct (run cls (recording texts) tb1) as [rs tb2] eqn:E.
    simpl in *. rewrite Hs in IH. rewrite IH.
    + rewrite deque_append_items by exact Hb. simpl.
      rewrite lastn_app_lastn, <- app_assoc. reflexivity.
    + apply deque_append_bounded. exact Hb.
Qed.

Lemma run_cons (cls : class_dict) (o : op) (ops : list op) (tb : Textbox) :
  snd (run cls (o :: ops) tb) = snd (run cls ops (exec (do_op cls o) tb)).
Proof.
  unfold exec. simpl. destruct (do_op cls o tb) as [r tb1]. simpl.
  destruct (run cls ops tb1) as [rs tb2]. reflexivity.
Qed.

Lemma repeat_stackify_cursor (cls : class_dict) (n : nat) :
  forall tb : Textbox,
    stackcursor tb <= 9 ->
    stackcursor (snd (run cls (repeat Stackify n) tb))
    = Z.min (stackcursor tb + Z.of_nat n) 9.
Proof.
  induction n as [|n IH]; intros tb H.
  - simpl. lia.
  - cbn [repeat]. rewrite run_cons. cbn [do_op].
    rewrite IH; rewrite stackify_cursor;
      destruct (Z.ltb_spec (stackcursor tb) 9); lia.
Qed.

(** Whatever the capacity, n calls of [stackify] on a new widget leave
    the cursor at min n 9. *)
Theorem stackify_n_cursor (cf : Conf) (n : nat) :
  stackcursor (snd (run Textbox_class (repeat Stackify n) (Textbox_init cf)))
  = Z.min (Z.of_nat n) 9.
Proof. rewrite repeat_stackify_cursor by (simpl; lia). reflexivity. Qed.

(** C4, as stated, fails: with capacity 3 four calls of [stackify] take
    the cursor through 1, 2, 3, 4, not 0, 1, 2, 2. *)
Lemma stackify_cursor_capacity_3 :
  cursor_history Textbox_class [Stackify; Stackify; Stackify; Stackify]
                 (Textbox_init cf3) = [1; 2; 3; 4]
  /\ cursor_history Textbox_class [Stackify; Stackify; Stackify; Stackify]
                    (Textbox_init cf3) <> [0; 1; 2; 2].
Proof. split; [reflexivity | discriminate]. Qed.

(** C4, amended: with capacity 10, the capacity at which the bound 9 of
    line 131 is capacity - 1, every call of [stackify] advances the
    cursor by exactly one while it is below capacity - 1 and leaves it
    there afterwards; from the cursor 0 of a new widget four calls take
    it through 1, 2, 3, 4, and n calls to min n (capacity - 1). *)
Theorem stackify_cursor_capacity_10 (cf : Conf) :
  max_undo cf = 10%nat ->
  (forall tb : Textbox,
      maxlen (stack tb) = max_undo cf ->
      stackcursor (exec stackify tb)
      = if stackcursor tb <? Z.of_nat (maxlen (stack tb)) - 1
        then stackcursor tb + 1 else stackcursor tb)
  /\ cursor_history Textbox_class [Stackify; Stackify; Stackify; Stackify]
                    (Textbox_init cf) = [1; 2; 3; 4]
  /\ (forall n : nat,
         stackcursor (snd (run Textbox_class (repeat Stackify n) (Textbox_init cf)))
         = Z.min (Z.of_nat n) (Z.of_nat (max_undo cf) - 1)).
Proof.
  intros H. split; [|split].
  - intros tb Hm. rewrite stackify_cursor, Hm, H. reflexivity.
  - reflexivity.
  - intros n. rewrite repeat_stackify_cursor by (simpl; lia).
    rewrite H. reflexivity.
Qed.

Lemma stackify_cursor_capacity_10_witness :
  max_undo cf10 = 10%nat /\
  cursor_history Textbox_class [Stackify; Stackify; Stackify; Stackify]
                 (Textbox_init cf10) = [1; 2; 3; 4].
Proof.
  split; [reflexivity|].
  apply (stackify_cursor_capacity_10 cf10). reflexivity.
Defined.

(** C5: a call of [stackify] puts the content of the widget, without
    Tk's final newline, at the right end of the stack; a stack that is
    at capacity loses its oldest entry.  After the texts of a list have
    been recorded in a new widget the stack holds the last capacity of
    them, in order: when more than capacity texts were recorded, exactly
    the capacity most recent ones are left. *)
Theorem stackify_keeps_most_recent (cf : Conf) :
  (forall tb : Textbox,
      (List.length (items (stack tb)) < maxlen (stack tb))%nat ->
      items (stack (exec stackify tb)) = items (stack tb) ++ [text tb])
  /\ (forall tb : Textbox,
         (0 < maxlen (stack tb))%nat ->
         List.length (items (stack tb)) = maxlen (stack tb) ->
         items (stack (exec stackify tb)) = tl (items (stack tb)) ++ [text tb])
  /\ (forall texts : list string,
         items (stack (snd (run Textbox_class (recording texts) (Textbox_init cf))))
         = lastn (max_undo cf) texts)
  /\ (forall texts : list string,
         (max_undo cf < List.length texts)%nat ->
         let kept := items (stack (snd (run Textbox_class (recording texts)
                                            (Textbox_init cf)))) in
         kept = skipn (List.length texts - max_undo cf) texts
         /\ List.length kept = max_undo cf).
Proof.
  assert (R : forall texts : list string,
             items (stack (snd (run Textbox_class (recording texts) (Textbox_init cf))))
             = lastn (max_undo cf) texts).
  { intros texts. rewrite recording_stack; [reflexivity | simpl; lia]. }
  split; [|split; [|split; [|intros texts Hn; split]]].
  - intros tb H. rewrite stackify_stack. unfold deque_append. simpl.
    rewrite length_app. simpl.
    destruct (Nat.ltb_spec (maxlen (stack tb)) (List.length (items (stack tb)) + 1));
      [lia | reflexivity].
  - intros tb H0 H. rewrite stackify_stack. unfold deque_append. simpl.
    rewrite length_app. simpl.
    destruct (Nat.ltb_spec (maxlen (stack tb)) (List.length (items (stack tb)) + 1));
      [|lia].
    destruct (items (stack tb)); [simpl in H; lia | reflexivity].
  - exact R.
  - rewrite R. reflexivity.
  - rewrite R, lastn_length. lia.
Qed.

Lemma stackify_keeps_most_recent_witness :
  items (stack (snd (run Textbox_class (recording ["a"; "ab"; "abc"; "abcd"])
                         (Textbox_init cf3))))
  = ["ab"; "abc"; "abcd"].
Proof.
  exact (proj1 (proj2 (proj2 (stackify_keeps_most_recent cf3)))
               ["a"; "ab"; "abc"; "abcd"]).
Defined.

(** ** The cursor and the bounds of the stack *)

Lemma len_deque_append (d : deque) (x : string) :
  (List.length (items d) <= maxlen d)%nat ->
  len (deque_append d x) = Z.min (len d + 1) (Z.of_nat (maxlen d)).
Proof.
  intros H. unfold len. rewrite deque_append_items by exact H.
  rewrite lastn_length, length_app. simpl. lia.
Qed.

Lemma undo_Textbox_state (tb : Textbox) : exec (undo Textbox_class) tb = tb.
Proof.
  unfold exec. destruct (Z.eq_dec (stackcursor tb) 0) as [E|E].
  - rewrite undo_at_zero by exact E. reflexivity.
  - rewrite undo_unbound by (reflexivity || exact E). reflexivity.
Qed.

Lemma redo_Textbox_state (tb : Textbox) : exec (redo Textbox_class) tb = tb.
Proof.
  unfold exec.
  destruct (Z_lt_le_dec (stackcursor tb + 1) (len (stack tb))) as [L|L].
  - rewrite redo_unbound by (reflexivity || exact L). reflexivity.
  - rewrite redo_at_end by exact L. reflexivity.
Qed.

Lemma history_ok_same_history (cf : Conf) (tb tb' : Textbox) :
  stack tb' = stack tb -> stackcursor tb' = stackcursor tb ->
  history_ok cf tb -> history_ok cf tb'.
Proof. unfold history_ok. intros -> ->. exact (fun H => H). Qed.

Lemma do_op_history_ok (cf : Conf) (o : op) (tb : Textbox) :
  (9 <= max_undo cf)%nat ->
  history_ok cf tb -> history_ok cf (exec (do_op Textbox_class o) tb).
Proof.
  intros H9 H. destruct o as [s| | |]; cbn [do_op].
  - apply (history_ok_same_history cf tb); [reflexivity | reflexivity | exact H].
  - destruct H as (Hc & H9c & Hm & Hl).
    pose proof (len_deque_append (stack tb) (text tb) Hl) as El.
    pose proof (deque_append_bounded (stack tb) (text tb) Hl) as Eb.
    unfold history_ok. rewrite stackify_cursor, stackify_stack, El.
    rewrite deque_append_maxlen in *.
    destruct (Z.ltb_spec (stackcursor tb) 9); repeat split;
      first [exact Hm | exact Eb | lia].
  - rewrite undo_Textbox_state. exact H.
  - rewrite redo_Textbox_state. exact H.
Qed.

Lemma run_history_ok (cf : Conf) (ops : list op) :
  (9 <= max_undo cf)%nat ->
  forall tb : Textbox,
    history_ok cf tb -> history_ok cf (snd (run Textbox_class ops tb)).
Proof.
  intros H9. induction ops as [|o ops IH]; intros tb H; [exact H|].
  rewrite run_cons. apply IH. apply do_op_history_ok; assumption.
Qed.

(** With a capacity of at least 9 the cursor of a reachable widget is
    within 0 and the number of stored snapshots. *)
Lemma cursor_in_bounds_capacity_9 (cf : Conf) (tb : Textbox) :
  (9 <= max_undo cf)%nat -> reachable cf tb -> cursor_in_bounds tb.
Proof.
  intros H9 [ops <-].
  apply (run_history_ok cf ops H9 (Textbox_init cf)).
  unfold history_ok, len. simpl. repeat split; lia.
Qed.

Lemma cursor_in_bounds_capacity_9_witness :
  (9 <= max_undo cf10)%nat
  /\ cursor_in_bounds
       (snd (run Textbox_class [Stackify; Undo; Stackify; Redo] (Textbox_init cf10))).
Proof.
  split; [simpl; lia|].
  apply (cursor_in_bounds_capacity_9 cf10); [simpl; lia|].
  exists [Stackify; Undo; Stackify; Redo]. reflexivity.
Defined.

(** C6, as the code runs: with capacity 3, four calls of [stackify] on
    a new widget leave the cursor at 4 over a stack of 3 snapshots. *)
Theorem cursor_exceeds_stack_capacity_3 :
  exists tb : Textbox,
    reachable cf3 tb
    /\ stackcursor tb = 4 /\ len (stack tb) = 3 /\ ~ cursor_in_bounds tb.
Proof.
  exists (snd (run Textbox_class [Stackify; Stackify; Stackify; Stackify]
                   (Textbox_init cf3))).
  split; [eexists; reflexivity|].
  split; [reflexivity|]. split; [reflexivity|].
  unfold cursor_in_bounds. vm_compute. intros [_ H]. apply H. reflexivity.
Qed.

(** C10, as the code runs: on a new widget, whatever the configuration,
    [stackify] followed by [undo] ends with the AttributeError of the
    call [self.clear()]. *)
Theorem undo_after_stackify_raises (cf : Conf) :
  fst (run Textbox_class [Stackify; Undo] (Textbox_init cf))
  = [Ok tt; Raise (AttributeError "clear")].
Proof.
  cbn [run do_op]. rewrite stackify_eq. cbv zeta.
  change (stackcursor (Textbox_init cf) <? 9) with true. cbv iota.
  rewrite undo_unbound; [reflexivity | reflexivity | discriminate].
Qed.

(** ** The dirty flag *)

Lemma check_on_key_eq (e : Event) (tb : Textbox) :
  check_on_key e tb =
  stackify (if negb (changed_since_saved tb) && (state e =? 16)
            then log_tab (tk_name tb) (_file_name tb ++ " *")%string
                         (set_changed_since_saved true tb)
            else tb).
Proof.
  unfold check_on_key, bind, gets, modify, file_name, tabs_set_properties, ret.
  destruct (negb (changed_since_saved tb) && (state e =? 16)); reflexivity.
Qed.

Lemma stackify_frame (tb : Textbox) :
  changed_since_saved (exec stackify tb) = changed_since_saved tb
  /\ tab_log (exec stackify tb) = tab_log tb
  /\ tk_name (exec stackify tb) = tk_name tb
  /\ _file_name (exec stackify tb) = _file_name tb.
Proof.
  unfold exec. rewrite stackify_eq. simpl.
  destruct (stackcursor tb <? 9); repeat split.
Qed.

Lemma check_on_key_clean_plain (e : Event) (tb : Textbox) :
  changed_since_saved tb = false -> state e = 16 ->
  changed_since_saved (exec (check_on_key e) tb) = true
  /\ tab_log (exec (check_on_key e) tb) = tab_log tb ++ [dirty_title tb]
  /\ tk_name (exec (check_on_key e) tb) = tk_name tb
  /\ _file_name (exec (check_on_key e) tb) = _file_name tb.
Proof.
  intros Hc Hs. unfold exec. rewrite check_on_key_eq, Hc, Hs. simpl.
  match goal with |- context [stackify ?t] =>
    destruct (stackify_frame t) as (A & B & C & D) end.
  unfold exec in *. rewrite A, B, C, D. repeat split.
Qed.

Lemma check_on_key_other (e : Event) (tb : Textbox) :
  changed_since_saved tb = true \/ state e <> 16 ->
  changed_since_saved (exec (check_on_key e) tb) = changed_since_saved tb
  /\ tab_log (exec (check_on_key e) tb) = tab_log tb
  /\ tk_name (exec (check_on_key e) tb) = tk_name tb
  /\ _file_name (exec (check_on_key e) tb) = _file_name tb.
Proof.
  intros H. unfold exec. rewrite check_on_key_eq.
  assert (E : negb (changed_since_saved tb) && (state e =? 16) = false).
  { destruct H as [H|H]; [rewrite H; reflexivity|].
    apply Z.eqb_neq in H. rewrite H. apply andb_false_r. }
  rewrite E. apply stackify_frame.
Qed.

Lemma feed_app (ins1 ins2 : list input) (tb : Textbox) :
  feed (ins1 ++ ins2) tb = feed ins2 (feed ins1 tb).
Proof.
  revert tb. induction ins1 as [|i ins1 IH]; intros tb; [reflexivity|].
  simpl. apply IH.
Qed.

Lemma keys_when_dirty (es : list Event) :
  forall tb : Textbox,
    changed_since_saved tb = true ->
    changed_since_saved (feed (map KeyPress es) tb) = true
    /\ tab_log (feed (map KeyPress es) tb) = tab_log tb.
Proof.
  induction es as [|e es IH]; intros tb H; [split; [exact H | reflexivity]|].
  cbn [map feed do_input].
  destruct (check_on_key_other e tb (or_introl H)) as (A & B & _).
  destruct (IH (exec (check_on_key e) tb)) as [A' B']; [congruence|].
  split; congruence.
Qed.

Lemma keys_when_clean (es : list Event) :
  forall tb : Textbox,
    changed_since_saved tb = false ->
    changed_since_saved (feed (map KeyPress es) tb) = existsb plain es
    /\ tab_log (feed (map KeyPress es) tb)
       = tab_log tb ++ (if existsb plain es then [dirty_title tb] else []).
Proof.
  induction es as [|e es IH]; intros tb H.
  - simpl. rewrite app_nil_r. split; [exact H | reflexivity].
  - cbn [map feed do_input existsb]. unfold plain at 1 3.
    destruct (Z.eqb_spec (state e) 16) as [E|E].
    + destruct (check_on_key_clean_plain e tb H E) as (A & B & _).
      destruct (keys_when_dirty es (exec (check_on_key e) tb) A) as [A' B'].
      simpl. split; congruence.
    + destruct (check_on_key_other e tb (or_intror E)) as (A & B & C & D).
      destruct (IH (exec (check_on_key e) tb)) as [A' B']; [congruence|].
      simpl. split; [exact A'|]. rewrite B', B. unfold dirty_title.
      rewrite C, D. reflexivity.
Qed.

(** C7, as stated, fails: an arrow key pressed without a modifier
    arrives with state 16; it moves the cursor, changes no text, and
    sets the flag of a new widget. *)
Lemma arrow_key_sets_changed_since_saved :
  navigation_only left_arrow = true
  /\ changed_since_saved (Textbox_init cf10) = false
  /\ changed_since_saved (exec (check_on_key left_arrow) (Textbox_init cf10)) = true.
Proof. repeat split. Qed.

(** C7, amended: the flag starts false.  A key event with modifier
    state 16 that meets a clear flag sets it, and on that step, and on
    no other, the tab bar is handed the file name followed by " *".  In
    a sequence of key events the first with state 16 does so and the
    later ones change neither flag nor title, until a save clears the
    flag and the next sequence starts as the first did.  An event whose
    state is not 16 never sets the flag. *)
Theorem dirty_flag_lifecycle :
  (forall cf : Conf, changed_since_saved (Textbox_init cf) = false)
  /\ (forall (e : Event) (tb : Textbox),
         changed_since_saved tb = false -> state e = 16 ->
         changed_since_saved (exec (check_on_key e) tb) = true
         /\ tab_log (exec (check_on_key e) tb) = tab_log tb ++ [dirty_title tb])
  /\ (forall (e : Event) (tb : Textbox),
         changed_since_saved tb = true \/ state e <> 16 ->
         changed_since_saved (exec (check_on_key e) tb) = changed_since_saved tb
         /\ tab_log (exec (check_on_key e) tb) = tab_log tb)
  /\ (forall (es : list Event) (tb : Textbox),
         changed_since_saved tb = false ->
         changed_since_saved (feed (map KeyPress es) tb) = existsb plain es
         /\ tab_log (feed (map KeyPress es) tb)
            = tab_log tb ++ (if existsb plain es then [dirty_title tb] else []))
  /\ (forall (es : list Event) (tb : Textbox),
         changed_since_saved tb = true ->
         changed_since_saved (feed (map KeyPress es) tb) = true
         /\ tab_log (feed (map KeyPress es) tb) = tab_log tb)
  /\ (forall (ins : list input) (es : list Event) (tb : Textbox),
         let saved := feed (ins ++ [Saved]) tb in
         let tb' := feed ((ins ++ [Saved]) ++ map KeyPress es) tb in
         changed_since_saved tb' = existsb plain es
         /\ tab_log tb'
            = tab_log saved ++ (if existsb plain es then [dirty_title saved] else [])).
Proof.
  split; [reflexivity|].
  split; [intros e tb H1 H2;
          destruct (check_on_key_clean_plain e tb H1 H2) as (A & B & _); auto|].
  split; [intros e tb H; destruct (check_on_key_other e tb H) as (A & B & _); auto|].
  split; [intros es tb; apply keys_when_clean|].
  split; [intros es tb; apply keys_when_dirty|].
  intros ins es tb saved tb'. subst tb' saved.
  rewrite (feed_app (ins ++ [Saved])). apply keys_when_clean.
  rewrite feed_app. reflexivity.
Qed.

Lemma dirty_flag_lifecycle_witness :
  tab_log (feed (map KeyPress [ctrl_left; key_a; key_a]) (Textbox_init cf10))
  = [("", "Untitled *")].
Proof.
  exact (proj2 (proj1 (proj2 (proj2 (proj2 dirty_flag_lifecycle)))
                      [ctrl_left; key_a; key_a] (Textbox_init cf10) eq_refl)).
Defined.

(** ** The command proxy *)

Lemma tuple_eqb_eq (a b : list string) : tuple_eqb a b = true <-> a = b.
Proof.
  revert b. induction a as [|x a IH]; intros [|y b]; simpl;
    try (split; [discriminate | discriminate]); [tauto|].
  rewrite andb_true_iff, String.eqb_eq, IH.
  split; [intros [-> ->]; reflexivity | intros [= -> ->]; auto].
Qed.

Lemma firstn_2_eq (args : list string) (x y : string) :
  firstn 2 args = [x; y] <-> exists rest, args = x :: y :: rest.
Proof.
  split.
  - destruct args as [|a [|b rest]]; simpl; try discriminate.
    intros [= -> ->]. eauto.
  - intros [rest ->]. reflexivity.
Qed.

Lemma firstn_3_eq (args : list string) (x y z : string) :
  firstn 3 args = [x; y; z] <-> exists rest, args = x :: y :: z :: rest.
Proof.
  split.
  - destruct args as [|a [|b [|c rest]]]; simpl; try discriminate.
    intros [= -> -> ->]. eauto.
  - intros [rest ->]. reflexivity.
Qed.

Lemma is_change_iff (a0 : string) (rest : list string) :
  is_change a0 (a0 :: rest) = true <-> change_op (a0 :: rest).
Proof.
  unfold is_change, change_op.
  remember (a0 :: rest) as args eqn:Ea.
  rewrite !orb_true_iff, !tuple_eqb_eq, firstn_3_eq, !firstn_2_eq.
  cbn [existsb]. rewrite !orb_true_iff, !String.eqb_eq.
  split.
  - intros H. decompose [or] H; clear H; subst; eauto 10; discriminate.
  - intros H. decompose [or ex] H; clear H; subst args;
      repeat match goal with E : _ :: _ = _ :: _ |- _ => injection E as -> -> end;
      eauto 12.
Qed.

Lemma classify_true_iff (args : list string) :
  classify args = Ok true <-> change_op args.
Proof.
  destruct args as [|a0 rest].
  - unfold classify, change_op. simpl. split; [discriminate|].
    intros H; decompose [or ex] H; discriminate.
  - unfold classify. cbn [args_0]. rewrite <- is_change_iff.
    split; [intros [= H]; exact H | intros ->; reflexivity].
Qed.

Lemma classify_cases (args : list string) :
  classify args = Ok true \/ classify args = Ok false
  \/ classify args = Raise IndexError.
Proof.
  unfold classify. destruct args as [|a0 rest]; cbn [args_0]; [tauto|].
  destruct (is_change a0 (a0 :: rest)); tauto.
Qed.

(** C8: when the widget has carried out the command, the proxy
    generates [<<Change>>], once, if the command is insert, replace or
    delete or starts with one of the five listed prefixes, and for
    every other command it generates nothing. *)
Theorem proxy_generates_change_iff
        (cf : Conf) (tk_call : list string -> Result string) (orig : string)
        (args : list string) (r : string) (w : Console) :
  tk_call (orig :: args) = Ok r ->
  (change_op args ->
   _proxy_for_line_numbers cf tk_call orig args w
   = (Ok r, mkConsole (stdout w) (generated w ++ ["<<Change>>"])))
  /\ (~ change_op args ->
      exec (_proxy_for_line_numbers cf tk_call orig args) w = w).
Proof.
  intros Hr.
  assert (E : forall b, classify args = b ->
              _proxy_for_line_numbers cf tk_call orig args w
              = match b with
                | Ok true => (Ok r, mkConsole (stdout w) (generated w ++ ["<<Change>>"]))
                | Ok false => (Ok r, w)
                | Raise e => (Raise e, w)
                end).
  { intros b Hb. unfold _proxy_for_line_numbers, bind, lift, ret, event_generate, modify.
    rewrite Hr, Hb. destruct (dev_mode cf); destruct b as [[|]|e]; reflexivity. }
  split; intros H.
  - apply classify_true_iff in H. rewrite (E _ H). reflexivity.
  - unfold exec. destruct (classify_cases args) as [C|[C|C]]; rewrite (E _ C).
    + apply classify_true_iff in C. contradiction.
    + reflexivity.
    + reflexivity.
Qed.

Lemma proxy_generates_change_iff_witness :
  tk_ok [".t_orig"; "mark"; "set"; "insert"; "1.0"] = Ok ""
  /\ generated (exec (_proxy_for_line_numbers cf10 tk_ok ".t_orig"
                        ["mark"; "set"; "insert"; "1.0"]) console0)
     = ["<<Change>>"]
  /\ generated (exec (_proxy_for_line_numbers cf10 tk_ok ".t_orig"
                        ["mark"; "set"; "anchor"; "1.0"]) console0)
     = [].
Proof.
  split; [reflexivity|]. split.
  - unfold exec.
    rewrite (proj1 (proxy_generates_change_iff cf10 tk_ok ".t_orig"
                      ["mark"; "set"; "insert"; "1.0"] "" console0 eq_refl)).
    + reflexivity.
    + unfold change_op. do 3 right. left. eexists. reflexivity.
  - rewrite (proj2 (proxy_generates_change_iff cf10 tk_ok ".t_orig"
                      ["mark"; "set"; "anchor"; "1.0"] "" console0 eq_refl)).
    + reflexivity.
    + intros H. apply classify_true_iff in H. discriminate H.
Defined.

Lemma proxy_fault_eq
      (cf : Conf) (tk_call : list string -> Result string) (orig : string)
      (args : list string) (e : exn) (w : Console) :
  tk_call (orig :: args) = Raise e ->
  _proxy_for_line_numbers cf tk_call orig args w =
  if dev_mode cf then
    let w1 := mkConsole (stdout w ++ [PrintExn e; PrintCmd (orig :: args)])
                        (generated w) in
    match classify args with
    | Ok true => (Raise (UnboundLocalError "result"),
                  mkConsole (stdout w1) (generated w1 ++ ["<<Change>>"]))
    | Ok false => (Raise (UnboundLocalError "result"), w1)
    | Raise x => (Raise x, w1)
    end
  else (Raise e, w).
Proof.
  intros Hr.
  unfold _proxy_for_line_numbers, bind, lift, ret, raise, print,
    event_generate, modify.
  rewrite Hr. destruct (dev_mode cf); [|reflexivity].
  simpl. rewrite <- app_assoc. simpl.
  destruct (classify args) as [[|]|x]; reflexivity.
Qed.

(** C9, as stated, fails: no value of the switch lets the proxy outlive
    a fault of the widget command.  With [cf.dev_mode] off the
    exception of the command leaves the proxy and nothing is printed;
    with it on the exception is printed and the proxy raises
    UnboundLocalError. *)
Lemma proxy_fault_no_mode_survives :
  _proxy_for_line_numbers cf10 tk_bad ".t_orig" ["insert"; "bogus"; "x"] console0
  = (Raise (TclError "bad text index"), console0)
  /\ _proxy_for_line_numbers cfdev tk_bad ".t_orig" ["insert"; "bogus"; "x"] console0
     = (Raise (UnboundLocalError "result"),
        mkConsole [PrintExn (TclError "bad text index");
                   PrintCmd [".t_orig"; "insert"; "bogus"; "x"]]
                  ["<<Change>>"]).
Proof. split; reflexivity. Qed.

(** C9, amended: what a fault of the widget command leads to is
    governed by the switch [cf.dev_mode].  With the switch off the
    exception of the command leaves the proxy as it came, nothing being
    printed or generated.  With the switch on the exception is caught:
    it is printed, and so is the command, and the proxy goes on to
    generate [<<Change>>] for a command that counts as a change. *)
Theorem proxy_fault_by_dev_mode
        (cf : Conf) (tk_call : list string -> Result string) (orig : string)
        (args : list string) (e : exn) (w : Console) :
  tk_call (orig :: args) = Raise e ->
  (dev_mode cf = false ->
   _proxy_for_line_numbers cf tk_call orig args w = (Raise e, w))
  /\ (dev_mode cf = true ->
      stdout (exec (_proxy_for_line_numbers cf tk_call orig args) w)
      = stdout w ++ [PrintExn e; PrintCmd (orig :: args)]
      /\ (change_op args ->
          generated (exec (_proxy_for_line_numbers cf tk_call orig args) w)
          = generated w ++ ["<<Change>>"])).
Proof.
  intros Hr. unfold exec. rewrite (proxy_fault_eq cf tk_call orig args e w Hr).
  split; intros Hd; rewrite Hd; [reflexivity|].
  cbv zeta. split.
  - destruct (classify args) as [[|]|x]; reflexivity.
  - intros Hc. apply classify_true_iff in Hc. rewrite Hc. reflexivity.
Qed.

Lemma proxy_fault_by_dev_mode_witness :
  tk_bad [".t_orig"; "insert"; "bogus"; "x"] = Raise (TclError "bad text index")
  /\ dev_mode cfdev = true
  /\ stdout (exec (_proxy_for_line_numbers cfdev tk_bad ".t_orig"
                     ["insert"; "bogus"; "x"]) console0)
     = [PrintExn (TclError "bad text index");
        PrintCmd [".t_orig"; "insert"; "bogus"; "x"]]
  /\ dev_mode cf10 = false
  /\ _proxy_for_line_numbers cf10 tk_bad ".t_orig" ["insert"; "bogus"; "x"] console0
     = (Raise (TclError "bad text index"), console0).
Proof.
  split; [reflexivity|]. split; [reflexivity|]. split.
  - apply (proxy_fault_by_dev_mode cfdev tk_bad ".t_orig" ["insert"; "bogus"; "x"]
             (TclError "bad text index") console0 eq_refl).
    reflexivity.
  - split; [reflexivity|].
    apply (proxy_fault_by_dev_mode cf10 tk_bad ".t_orig" ["insert"; "bogus"; "x"]
             (TclError "bad text index") console0 eq_refl).
    reflexivity.
Defined.

(** When the widget command raises, the proxy raises, whatever the
    switch says: with the switch on, after the printing, at
    [return result], since [result] was never bound (IndexError before
    that when the command has no word). *)
Theorem proxy_fault_raises
        (cf : Conf) (tk_call : list string -> Result string) (orig : string)
        (args : list string) (e : exn) (w : Console) :
  tk_call (orig :: args) = Raise e ->
  raised (outcome (_proxy_for_line_numbers cf tk_call orig args) w) = true
  /\ (dev_mode cf = true -> args <> [] ->
      outcome (_proxy_for_line_numbers cf tk_call orig args) w
      = Raise (UnboundLocalError "result")).
Proof.
  intros Hr. unfold outcome.
  rewrite (proxy_fault_eq cf tk_call orig args e w Hr).
  destruct (dev_mode cf); cbv zeta.
  - destruct (classify_cases args) as [C|[C|C]]; rewrite C; simpl;
      (split; [reflexivity|]); intros _ Hn; try reflexivity.
    destruct args; [contradiction | discriminate C].
  - split; [reflexivity | discriminate].
Qed.

Lemma proxy_fault_raises_witness :
  tk_bad [".t_orig"; "insert"; "bogus"; "x"] = Raise (TclError "bad text index")
  /\ raised (outcome (_proxy_for_line_numbers cfdev tk_bad ".t_orig"
                        ["insert"; "bogus"; "x"]) console0) = true.
Proof.
  split; [reflexivity|].
  apply (proxy_fault_raises cfdev tk_bad ".t_orig" ["insert"; "bogus"; "x"]
           (TclError "bad text index") console0 eq_refl).
Defined.

(** ** What holds of [undo] and [redo] as they are *)

(** With the cursor at 0, [undo] returns and changes nothing. *)
Theorem undo_cursor_zero_noop (tb : Textbox) :
  stackcursor tb = 0 -> undo Textbox_class tb = (Ok tt, tb).
Proof. intros H. apply undo_at_zero. exact H. Qed.

Lemma undo_cursor_zero_noop_witness :
  undo Textbox_class (Textbox_init cf10) = (Ok tt, Textbox_init cf10)
  /\ undo Textbox_class tb_zero = (Ok tt, tb_zero).
Proof.
  split; [apply (undo_cursor_zero_noop (Textbox_init cf10)); reflexivity|].
  apply (undo_cursor_zero_noop tb_zero). reflexivity.
Defined.

(** With the cursor on the last snapshot or beyond it, [redo] returns
    and changes nothing. *)
Theorem redo_cursor_last_noop (tb : Textbox) :
  len (stack tb) - 1 <= stackcursor tb -> redo Textbox_class tb = (Ok tt, tb).
Proof. intros H. apply redo_at_end. lia. Qed.

Lemma redo_cursor_last_noop_witness :
  redo Textbox_class (Textbox_init cf10) = (Ok tt, Textbox_init cf10)
  /\ redo Textbox_class tb_last = (Ok tt, tb_last).
Proof.
  split; [apply (redo_cursor_last_noop (Textbox_init cf10)); discriminate|].
  apply (redo_cursor_last_noop tb_last). discriminate.
Defined.

(** ** The bodies of [undo] and [redo] past the call of clear

    The lemmas of this part are about a class that binds clear to what
    [clear_all] does, which Textbox does not: they tell what the
    statements of [undo] and [redo] after their first one compute. *)

Lemma string_app_nil_r (s : string) : (s ++ "")%string = s.
Proof. induction s as [|a s IH]; simpl; [reflexivity | rewrite IH; reflexivity]. Qed.

Lemma deque_getitem_nth (d : deque) (i : Z) (s : string) :
  0 <= i -> nth_error (items d) (Z.to_nat i) = Some s ->
  deque_getitem d i = Ok s.
Proof.
  intros Hi Hn. unfold deque_getitem.
  assert (Hl : (Z.to_nat i < List.length (items d))%nat)
    by (apply nth_error_Some; congruence).
  destruct (Z.ltb_spec i 0); [lia|].
  destruct (Z.ltb_spec i 0); [lia|]. simpl.
  destruct (Z.leb_spec (len d) i); [unfold len in *; lia|].
  rewrite Hn. reflexivity.
Qed.

Lemma undo_clear_bound (cls : class_dict) (tb : Textbox) (s : string) :
  getattr cls "clear" = Some clear_all ->
  0 < stackcursor tb ->
  nth_error (items (stack tb)) (Z.to_nat (stackcursor tb - 1)) = Some s ->
  undo cls tb = (Ok tt, set_text s (set_stackcursor (stackcursor tb - 1) tb)).
Proof.
  intros Hc H0 Hn.
  unfold undo, bind, gets, call_method. rewrite Hc.
  destruct (Z.eqb_spec (stackcursor tb) 0); [lia|]. simpl.
  destruct (Z.gtb_spec (stackcursor tb) 0); [|lia]. simpl.
  unfold lift. rewrite (deque_getitem_nth _ _ s) by (exact Hn || lia).
  unfold insert_0_0, modify, set_text. simpl. rewrite string_app_nil_r.
  reflexivity.
Qed.

Lemma redo_clear_bound (cls : class_dict) (tb : Textbox) (s : string) :
  getattr cls "clear" = Some clear_all ->
  0 <= stackcursor tb < 9 ->
  stackcursor tb + 1 < len (stack tb) ->
  nth_error (items (stack tb)) (Z.to_nat (stackcursor tb + 1)) = Some s ->
  redo cls tb = (Ok tt, set_text s (set_stackcursor (stackcursor tb + 1) tb)).
Proof.
  intros Hc H0 Hl Hn.
  unfold redo, bind, gets, call_method. rewrite Hc.
  destruct (Z.gtb_spec (len (stack tb)) (stackcursor tb + 1)); [|lia]. simpl.
  destruct (Z.ltb_spec (stackcursor tb) 9); [|lia]. simpl.
  unfold lift. rewrite (deque_getitem_nth _ _ s) by (exact Hn || lia).
  unfold insert_0_0, modify, set_text. simpl. rewrite string_app_nil_r.
  reflexivity.
Qed.

(** With capacity 3 the cursor runs past the stack, and the snapshot
    [undo] asks for does not exist. *)
Example undo_clear_bound_index_error :
  fst (run clear_bound_class [Stackify; Stackify; Stackify; Stackify; Undo]
           (Textbox_init cf3))
  = [Ok tt; Ok tt; Ok tt; Ok tt; Raise IndexError].
Proof. reflexivity. Qed.

(** [redo] puts back the snapshot under the cursor, which need not be
    the text [undo] replaced. *)
Example undo_redo_clear_bound_other_text :
  let tb := snd (run clear_bound_class edit_after_undo (Textbox_init cf10)) in
  text tb = "bx"
  /\ 0 < stackcursor tb < len (stack tb)
  /\ text (exec (undo clear_bound_class ;; redo clear_bound_class) tb) = "c".
Proof. repeat split. Qed.

(** ** File meta data *)

Lemma set_meta_eq (a b c d : option string) (t : Tabbed) :
  set_meta a b c d t =
  (Ok tt,
   let name := if_else d (tk_name (box t)) in
   let fname := if_else b (_file_name (box t)) in
   mkTabbed (set__file_name fname (set_tk_name name (box t)))
            (if_else c (full_path t)) (if_else a (file_path t))
            (tab_calls t ++ [(name, fname)])).
Proof. reflexivity. Qed.

Lemma if_else_not_given (x : option string) (y : string) :
  not_given x -> if_else x y = y.
Proof. intros [-> | ->]; reflexivity. Qed.

Lemma if_else_idempotent (x : option string) (y : string) :
  if_else x (if_else x y) = if_else x y.
Proof.
  destruct x as [s|]; simpl; [|reflexivity].
  destruct (s =? "")%string eqn:E; simpl; rewrite ?E; reflexivity.
Qed.

Lemma Textbox_eta (tb : Textbox) :
  set__file_name (_file_name tb) (set_tk_name (tk_name tb) tb) = tb.
Proof. destruct tb; reflexivity. Qed.

(** With every argument left out, or given as the empty string,
    [set_meta] raises nothing and changes no attribute, and still tells
    the tab bar the title once more: the name the tab already has.  A
    path or a name cannot be emptied through [set_meta]. *)
Theorem set_meta_not_given (a b c d : option string) (t : Tabbed) :
  not_given a -> not_given b -> not_given c -> not_given d ->
  set_meta a b c d t
  = (Ok tt,
     mkTabbed (box t) (full_path t) (file_path t)
              (tab_calls t ++ [(tk_name (box t), _file_name (box t))])).
Proof.
  intros Ha Hb Hc Hd. rewrite set_meta_eq. cbv zeta.
  rewrite !if_else_not_given by assumption.
  rewrite Textbox_eta. reflexivity.
Qed.

Lemma set_meta_not_given_witness :
  set_meta None (Some "") None None tabbed_file
  = (Ok tt,
     mkTabbed (box tabbed_file) "/home/u/a.py" "/home/u" [("tab1", "a.py")]).
Proof.
  apply (set_meta_not_given None (Some "") None None tabbed_file);
    unfold not_given; auto.
Defined.

(** Whatever the arguments, [set_meta] calls [tabs.tab] exactly once,
    for the tab name and with the file name that are in force when it
    returns (the name of the tab is assigned before the title is set);
    a second call with the same arguments changes no attribute and
    repeats the call to the tab bar; the content, the stack, the cursor
    and the dirty flag are never touched. *)
Theorem set_meta_retitles_once (a b c d : option string) (t : Tabbed) :
  let t1 := exec (set_meta a b c d) t in
  let t2 := exec (set_meta a b c d) t1 in
  tab_calls t1 = tab_calls t ++ [(tk_name (box t1), _file_name (box t1))]
  /\ box t2 = box t1 /\ full_path t2 = full_path t1 /\ file_path t2 = file_path t1
  /\ tab_calls t2 = tab_calls t1 ++ [(tk_name (box t1), _file_name (box t1))]
  /\ text (box t1) = text (box t) /\ stack (box t1) = stack (box t)
  /\ stackcursor (box t1) = stackcursor (box t)
  /\ changed_since_saved (box t1) = changed_since_saved (box t).
Proof.
  unfold exec. rewrite !set_meta_eq. cbn -[if_else].
  rewrite !if_else_idempotent. repeat split.
Qed.

Lemma set_meta_retitles_once_witness :
  tab_calls (exec (set_meta None (Some "b.py") None (Some "tab7")) tabbed_file)
  = [("tab7", "b.py")].
Proof.
  exact (proj1 (set_meta_retitles_once None (Some "b.py") None (Some "tab7")
                                       tabbed_file)).
Defined.

(** ** Blank widgets *)

Lemma append_newline_eq (s : string) : (s ++ newline)%string = newline <-> s = "".
Proof.
  split; [|intros ->; reflexivity].
  destruct s as [|a [|b s]]; simpl; [reflexivity | discriminate | discriminate].
Qed.

(** [is_blank] raises nothing, changes nothing, and answers True exactly
    when the widget holds no character besides Tk's final newline; a new
    widget is blank, and so is every widget after [clear_all]. *)
Theorem is_blank_iff_empty (tb : Textbox) :
  exec is_blank tb = tb
  /\ (outcome is_blank tb = Ok true <-> text tb = "")
  /\ (outcome is_blank tb = Ok false <-> text tb <> "")
  /\ outcome is_blank (exec clear_all tb) = Ok true
  /\ (forall cf, outcome is_blank (Textbox_init cf) = Ok true).
Proof.
  unfold is_blank, get_1_0_end, outcome, exec, bind, gets, ret. simpl.
  split; [reflexivity|].
  destruct (String.eqb_spec (text tb ++ newline) newline) as [E|E];
    rewrite append_newline_eq in E.
  - repeat split; try reflexivity; try discriminate; intros; try congruence.
  - repeat split; try reflexivity; try discriminate; intros; try congruence.
Qed.

(** ** Scrollbars *)

Lemma hide_unused_scrollbars_eq (b : Q * Q) (s : Scrollbars) :
  hide_unused_scrollbars b s =
  (Ok tt,
   if shows_all b then
     if horiz_scroll_visible s
     then mkScrollbars (vert_scroll_visible s) false (horiz_calls s ++ [pack_forget])
     else s
   else
     if horiz_scroll_visible s
     then s
     else mkScrollbars (vert_scroll_visible s) (horiz_scroll_visible s)
                       (horiz_calls s ++ [pack])).
Proof.
  unfold hide_unused_scrollbars, shows_all, horiz_scroll_call, bind, gets,
    modify, ret.
  destruct (Qeq_bool (fst b) (0 # 1) && Qeq_bool (snd b) (1 # 1)); simpl;
    destruct (horiz_scroll_visible s) eqn:E; simpl; rewrite ?E; reflexivity.
Qed.

Lemma hide_each_hidden (bars : list (Q * Q)) :
  forall s : Scrollbars,
    horiz_scroll_visible s = false ->
    horiz_scroll_visible (hide_each bars s) = false
    /\ vert_scroll_visible (hide_each bars s) = vert_scroll_visible s
    /\ horiz_calls (hide_each bars s)
       = horiz_calls s
         ++ repeat pack (List.length (filter (fun b => negb (shows_all b)) bars)).
Proof.
  induction bars as [|b bars IH]; intros s H.
  - simpl. rewrite app_nil_r. auto.
  - cbn [hide_each filter]. unfold exec. rewrite hide_unused_scrollbars_eq.
    rewrite H. destruct (shows_all b); cbn [snd negb].
    + apply IH. exact H.
    + match goal with |- context [hide_each bars ?s1] =>
        destruct (IH s1) as (A & B & C); [reflexivity|] end.
      rewrite A, B, C. cbn [horiz_calls vert_scroll_visible List.length repeat].
      rewrite <- app_assoc. auto.
Qed.

(** No call of [hide_unused_scrollbars] sets [horiz_scroll_visible]:
    the flag is False when the scrollbars are made and stays False.
    So the horizontal scrollbar is never told to hide, and it is packed
    anew by every call that finds part of the text out of view. *)
Theorem horiz_scroll_never_visible (bars : list (Q * Q)) :
  let s := hide_each bars Scrollbars_init in
  horiz_scroll_visible s = false
  /\ ~ In pack_forget (horiz_calls s)
  /\ horiz_calls s
     = repeat pack (List.length (filter (fun b => negb (shows_all b)) bars))
  /\ (forall (b : Q * Q) (s0 : Scrollbars),
         horiz_scroll_visible (exec (hide_unused_scrollbars b) s0) = true ->
         horiz_scroll_visible s0 = true).
Proof.
  cbv zeta. destruct (hide_each_hidden bars Scrollbars_init eq_refl) as (A & _ & C).
  simpl in C. rewrite A, C. split; [reflexivity|]. split; [|split; [reflexivity|]].
  - intros H. apply repeat_spec in H. discriminate.
  - intros b s0. unfold exec. rewrite hide_unused_scrollbars_eq.
    destruct (shows_all b), (horiz_scroll_visible s0) eqn:E; simpl;
      rewrite ?E; auto.
Qed.

(** ** Calls that leave no trace *)

(** On the widget as it is, [undo] and [redo] change nothing, whatever
    state they find: a sequence of calls leaves the widget as the same
    sequence without its [undo] and [redo] calls does. *)
Theorem undo_redo_leave_no_trace (ops : list op) (tb : Textbox) :
  exec (undo Textbox_class) tb = tb
  /\ exec (redo Textbox_class) tb = tb
  /\ snd (run Textbox_class ops tb)
     = snd (run Textbox_class (filter not_undo_redo ops) tb).
Proof.
  split; [apply undo_Textbox_state|]. split; [apply redo_Textbox_state|].
  revert tb. induction ops as [|o ops IH]; intros tb; [reflexivity|].
  destruct o as [s| | |]; cbn [filter not_undo_redo];
    rewrite ?run_cons; cbn [do_op];
    rewrite ?undo_Textbox_state, ?redo_Textbox_state; apply IH.
Qed.

(** ** Key presses and the stack *)

Lemma check_on_key_history (e : Event) (tb : Textbox) :
  text (exec (check_on_key e) tb) = text tb
  /\ stack (exec (check_on_key e) tb) = deque_append (stack tb) (text tb).
Proof.
  unfold exec. rewrite check_on_key_eq.
  destruct (negb (changed_since_saved tb) && (state e =? 16));
    rewrite stackify_eq; simpl;
    match goal with |- context [if ?c then _ else _] => destruct c end;
    split; reflexivity.
Qed.

Lemma lastn_repeat {A : Type} (x : A) (n k : nat) (l : list A) :
  (n <= k)%nat -> lastn n (l ++ repeat x k) = repeat x n.
Proof.
  intros H. unfold lastn. rewrite length_app, repeat_length.
  replace k with ((k - n) + n)%nat at 2 by lia.
  rewrite repeat_app, app_assoc.
  replace (List.length l + k - n)%nat
    with (List.length (l ++ repeat x (k - n)) + 0)%nat
    by (rewrite length_app, repeat_length; lia).
  apply skipn_past_prefix.
Qed.

Lemma feed_history (ins : list input) :
  forall tb : Textbox,
    (List.length (items (stack tb)) <= maxlen (stack tb))%nat ->
    text (feed ins tb) = text tb
    /\ maxlen (stack (feed ins tb)) = maxlen (stack tb)
    /\ items (stack (feed ins tb))
       = lastn (maxlen (stack tb))
               (items (stack tb)
                ++ repeat (text tb) (List.length (filter is_key ins))).
Proof.
  induction ins as [|i ins IH]; intros tb Hb.
  - simpl. rewrite app_nil_r, lastn_all by exact Hb. auto.
  - destruct i as [e|]; cbn [feed do_input filter is_key List.length repeat].
    + destruct (check_on_key_history e tb) as [Ht Hs].
      destruct (IH (exec (check_on_key e) tb)) as (A & B & C).
      { rewrite Hs. apply deque_append_bounded. exact Hb. }
      rewrite A, B, C, Ht, Hs, deque_append_maxlen.
      rewrite deque_append_items by exact Hb.
      rewrite lastn_app_lastn, <- app_assoc. auto.
    + apply (IH (exec save_ack tb)). exact Hb.
Qed.

(** Every key event records a snapshot, whatever the key and its
    modifiers, and the content is not changed by the handler: key
    presses that change no text put one copy of the text per event on
    the stack, and as many of them as the stack holds push every older
    snapshot out. *)
Theorem key_presses_fill_stack (ins : list input) (tb : Textbox) :
  (List.length (items (stack tb)) <= maxlen (stack tb))%nat ->
  text (feed ins tb) = text tb
  /\ items (stack (feed ins tb))
     = lastn (maxlen (stack tb))
             (items (stack tb)
              ++ repeat (text tb) (List.length (filter is_key ins)))
  /\ ((maxlen (stack tb) <= List.length (filter is_key ins))%nat ->
      items (stack (feed ins tb)) = repeat (text tb) (maxlen (stack tb))).
Proof.
  intros Hb. destruct (feed_history ins tb Hb) as (A & _ & C).
  split; [exact A|]. split; [exact C|].
  intros Hn. rewrite C. apply lastn_repeat. exact Hn.
Qed.

Lemma key_presses_fill_stack_witness :
  items (stack (feed (map KeyPress [left_arrow; left_arrow; ctrl_left; left_arrow])
                     (snd (run Textbox_class (recording ["a"; "ab"; "abc"])
                               (Textbox_init cf3)))))
  = ["abc"; "abc"; "abc"].
Proof.
  apply (key_presses_fill_stack
           (map KeyPress [left_arrow; left_arrow; ctrl_left; left_arrow])
           (snd (run Textbox_class (recording ["a"; "ab"; "abc"]) (Textbox_init cf3)))).
  - vm_compute. lia.
  - vm_compute. lia.
Defined.

(** ** The proxy when the widget answers *)

(** When the widget command answers, the proxy hands the answer on and
    prints nothing, whether [cf.dev_mode] is set or not, for every
    command that has at least its first word. *)
Theorem proxy_hands_answer_on
        (cf : Conf) (tk_call : list string -> Result string) (orig : string)
        (args : list string) (r : string) (w : Console) :
  tk_call (orig :: args) = Ok r ->
  args <> [] ->
  outcome (_proxy_for_line_numbers cf tk_call orig args) w = Ok r
  /\ stdout (exec (_proxy_for_line_numbers cf tk_call orig args) w) = stdout w.
Proof.
  intros Hr Hn.
  unfold outcome, exec, _proxy_for_line_numbers, bind, lift, ret,
    event_generate, modify.
  rewrite Hr. destruct args as [|a0 rest]; [contradiction|].
  unfold classify. cbn [args_0].
  destruct (dev_mode cf); destruct (is_change a0 (a0 :: rest)); split; reflexivity.
Qed.

Lemma proxy_hands_answer_on_witness :
  outcome (_proxy_for_line_numbers cfdev tk_ok ".t_orig" ["index"; "insert"]) console0
  = Ok "".
Proof.
  apply (proxy_hands_answer_on cfdev tk_ok ".t_orig" ["index"; "insert"] "" console0).
  - reflexivity.
  - discriminate.
Defined.

(** ** The selection *)

(** [get_selection] never raises and changes nothing: with nothing
    selected it answers the empty string, otherwise the characters from
    the first selected one to the last.  [delete_selection] has no such
    guard: with nothing selected it raises TclError and changes
    nothing, and otherwise it deletes from the first selected character
    to the last.  After [select_all] neither raises. *)
Theorem selection_guard (tk_delete : nat -> nat -> Selecting -> Selecting)
        (w : Selecting) :
  (exists s, get_selection w = (Ok s, w))
  /\ (sel_ranges w = [] ->
      get_selection w = (Ok "", w)
      /\ exists msg, delete_selection tk_delete w = (Raise (TclError msg), w))
  /\ (forall i j rest,
         sel_ranges w = (i, j) :: rest ->
         let k := snd (last rest (i, j)) in
         get_selection w
         = (Ok (substring i (k - i) (text (sel_box w) ++ newline)%string), w)
         /\ delete_selection tk_delete w = (Ok tt, tk_delete i k w))
  /\ outcome (delete_selection tk_delete) (exec select_all w) = Ok tt
  /\ outcome get_selection (exec select_all w)
     = Ok (text (sel_box w) ++ newline)%string.
Proof.
  assert (L : forall s, String.length (s ++ newline) = S (String.length s)).
  { induction s as [|a s IH]; simpl; [reflexivity | rewrite IH; reflexivity]. }
  assert (F : forall s, substring 0 (String.length s) s = s).
  { induction s as [|a s IH]; simpl; [reflexivity | rewrite IH; reflexivity]. }
  destruct w as [b ranges].
  unfold get_selection, delete_selection, sel_first, sel_last, get_range,
    select_all, outcome, exec, bind, gets, modify, ret, raise.
  cbn [sel_ranges sel_box fst snd].
  split; [|split; [|split; [|split]]].
  - destruct ranges as [|[i j] rest]; eexists; reflexivity.
  - intros ->. split; [reflexivity | eexists; reflexivity].
  - intros i j rest ->. cbv zeta. split; reflexivity.
  - reflexivity.
  - cbn [last snd]. rewrite Nat.sub_0_r, <- L, F. reflexivity.
Qed.

Lemma selection_guard_witness :
  get_selection no_selection = (Ok "", no_selection)
  /\ get_selection selected_world = (Ok "world", selected_world).
Proof.
  split.
  - apply (selection_guard (fun _ _ w => w) no_selection). reflexivity.
  - apply (proj1 (proj2 (proj2 (selection_guard (fun _ _ w => w) selected_world)))
                 6%nat 11%nat []).
    reflexivity.
Defined.

(** ** Leading spaces *)

Lemma substring_1 (s : string) :
  forall i : nat,
    substring i 1 s
    = match String.get i s with Some c => String c "" | None => "" end.
Proof.
  induction s as [|c s IH]; intros [|i]; simpl; try reflexivity.
  - destruct s; reflexivity.
  - apply IH.
Qed.

Lemma get_app_newline (s : string) :
  forall k : nat,
    String.get k (s ++ newline)
    = if (k <? String.length s)%nat then String.get k s
      else if (k =? String.length s)%nat then Some (ascii_of_nat 10) else None.
Proof.
  induction s as [|c s IH]; intros [|k]; try reflexivity.
  cbn [append String.get String.length]. rewrite IH. reflexivity.
Qed.

Lemma get_char_space (tb : Textbox) (k : nat) :
  outcome (get_char k) tb = Ok " " -> (k < String.length (text tb))%nat.
Proof.
  unfold outcome, get_char, gets. cbn [fst].
  rewrite substring_1, get_app_newline.
  destruct (Nat.ltb_spec k (String.length (text tb))); [auto|].
  destruct (k =? String.length (text tb))%nat; discriminate.
Qed.

(** [getIndex] comes to its end: as soon as the loop may run once more
    than there are characters from [index] to the end of the content,
    it answers without raising and without changing the widget.  Its
    answer is the first offset at or after [index] whose character is
    not a space: every character in between is a space, and the answer
    does not lie beyond the content when [index] does not. *)
Theorem getIndex_first_non_space (tb : Textbox) (fuel : nat) :
  forall index : nat,
    (String.length (text tb) - index < fuel)%nat ->
    exists r : nat,
      getIndex fuel index tb = (Ok (Some r), tb)
      /\ (index <= r)%nat
      /\ (forall k, (index <= k < r)%nat -> outcome (get_char k) tb = Ok " ")
      /\ outcome (get_char r) tb <> Ok " "
      /\ ((index <= String.length (text tb))%nat ->
          (r <= String.length (text tb))%nat).
Proof.
  induction fuel as [|fuel IH]; intros index Hf; [lia|].
  cbn [getIndex]. unfold bind at 1.
  assert (Hc : get_char index tb = (outcome (get_char index) tb, tb)) by reflexivity.
  rewrite Hc.
  destruct (outcome (get_char index) tb) as [c|e] eqn:Ec; [|discriminate Ec].
  destruct (String.eqb_spec c " ") as [->|Hn].
  - pose proof (get_char_space tb index Ec) as Hlt.
    destruct (IH (index + 1)%nat) as (r & Hr & Hle & Hsp & Hns & Hb); [lia|].
    exists r. split; [exact Hr|]. split; [lia|]. split; [|split; [exact Hns|]].
    + intros k Hk. destruct (Nat.eq_dec k index) as [->|Hd]; [exact Ec|].
      apply Hsp. lia.
    + intros _. apply Hb. lia.
  - exists index. split; [reflexivity|]. split; [lia|].
    split; [intros k Hk; lia|]. split; [|auto].
    rewrite Ec. intros [= H]. contradiction.
Qed.

Lemma getIndex_first_non_space_witness :
  outcome (getIndex 12 5) indented_line = Ok (Some 9%nat).
Proof.
  destruct (getIndex_first_non_space indented_line 12 5) as (r & Hr & _);
    [vm_compute; lia|].
  reflexivity.
Defined.

(** ** Line numbers *)

Lemma string_length_app (a b : string) :
  String.length (a ++ b) = (String.length a + String.length b)%nat.
Proof. induction a as [|c a IH]; simpl; [reflexivity | rewrite IH; reflexivity]. Qed.

Lemma str_fuel_step (f n : nat) :
  (10 <= n)%nat ->
  String.length (str_fuel (S f) n) = S (String.length (str_fuel f (n / 10))).
Proof.
  intros H. cbn [str_fuel].
  destruct (Nat.ltb_spec n 10); [lia|].
  rewrite string_length_app. unfold digit. simpl. lia.
Qed.

Lemma str_fuel_small (f n : nat) :
  (n < 10)%nat -> String.length (str_fuel (S f) n) = 1%nat.
Proof.
  intros H. cbn [str_fuel]. destruct (Nat.ltb_spec n 10); [reflexivity | lia].
Qed.

Lemma str_fuel_upper (k : nat) :
  forall f n : nat,
    (n < 10 ^ S k)%nat -> (n < f)%nat ->
    (String.length (str_fuel f n) <= S k)%nat.
Proof.
  induction k as [|k IH]; intros [|f] n Hn Hf; try lia.
  - rewrite str_fuel_small; [lia | simpl in Hn; lia].
  - destruct (Nat.lt_ge_cases n 10) as [H|H].
    + rewrite str_fuel_small by exact H. lia.
    + rewrite str_fuel_step by exact H.
      apply le_n_S. apply IH.
      * apply Nat.Div0.div_lt_upper_bound.
        change (10 ^ S (S k))%nat with (10 * 10 ^ S k)%nat in Hn. exact Hn.
      * assert (n / 10 < n)%nat by (apply Nat.div_lt; lia). lia.
Qed.

Lemma str_fuel_lower (k : nat) :
  forall f n : nat,
    (10 ^ k <= n)%nat -> (n < f)%nat ->
    (k < String.length (str_fuel f n))%nat.
Proof.
  induction k as [|k IH]; intros [|f] n Hn Hf; try lia.
  - destruct (Nat.lt_ge_cases n 10) as [H|H].
    + rewrite str_fuel_small by exact H. lia.
    + rewrite str_fuel_step by exact H. lia.
  - assert (H : (10 <= n)%nat).
    { pose proof (Nat.pow_nonzero 10 k). simpl in Hn. lia. }
    rewrite str_fuel_step by exact H.
    apply -> Nat.succ_lt_mono. apply IH.
    + apply Nat.div_le_lower_bound; [lia|].
      change (10 ^ S k)%nat with (10 * 10 ^ k)%nat in Hn. exact Hn.
    + assert (n / 10 < n)%nat by (apply Nat.div_lt; lia). lia.
Qed.

Lemma str_more_digits (n k : nat) :
  (S k < String.length (str n))%nat <-> (10 ^ S k <= n)%nat.
Proof.
  unfold str. split.
  - intros H. destruct (Nat.lt_ge_cases n (10 ^ S k)) as [L|L]; [|exact L].
    pose proof (str_fuel_upper k (S n) n L). lia.
  - intros H. apply str_fuel_lower; [exact H | lia].
Qed.

(** The label of a line: 2 pixels from the left, 2 above what
    [dlineinfo] gives as y, the number of the line as text, and the
    font size 7 exactly for the numbers from 10000 on, which have more
    than 4 digits, and 10 for every smaller one. *)
Theorem line_label_small_font (i : tk_index) (d : dline) :
  label_x (line_label i d) = 2
  /\ label_y (line_label i d) = dline_1 d - 2
  /\ label_text (line_label i d) = str (fst i)
  /\ (label_size (line_label i d) = 7 <-> (10 ^ 4 <= fst i)%nat)
  /\ (label_size (line_label i d) = 10 <-> (fst i < 10 ^ 4)%nat).
Proof.
  unfold line_label. cbn [label_x label_y label_text label_size].
  split; [reflexivity|]. split; [reflexivity|]. split; [reflexivity|].
  pose proof (str_more_digits (fst i) 3) as D.
  destruct (Nat.ltb_spec 4 (String.length (str (fst i)))) as [L|L].
  - split; split; intros H; try reflexivity; try discriminate.
    + apply D. exact L.
    + apply D in L. lia.
  - split; split; intros H; try reflexivity; try discriminate.
    + apply D in H. lia.
    + destruct (Nat.lt_ge_cases (fst i) (10 ^ 4)) as [G|G]; [exact G|].
      apply D in G. lia.
Qed.

Lemma round_index_succ (first : tk_index) (plus : tk_index -> tk_index) (k : nat) :
  round_index first plus (S k) = round_index (plus first) plus k.
Proof. unfold round_index. apply Nat.iter_succ_r. Qed.

Lemma round_label_succ (first : tk_index) (dl : tk_index -> option dline)
      (plus : tk_index -> tk_index) (k : nat) :
  round_label first dl plus (S k) = round_label (plus first) dl plus k.
Proof. unfold round_label. rewrite round_index_succ. reflexivity. Qed.

Lemma redraw_loop_some (dl : tk_index -> option dline)
      (plus : tk_index -> tk_index) (fuel : nat) :
  forall (i : tk_index) (acc c : list Label),
    redraw_loop dl plus fuel i acc = Some c <->
    exists n : nat,
      (n < fuel)%nat
      /\ dl (round_index i plus n) = None
      /\ (forall k, (k < n)%nat -> dl (round_index i plus k) <> None)
      /\ c = acc ++ map (round_label i dl plus) (seq 0 n).
Proof.
  induction fuel as [|fuel IH]; intros i acc c.
  - simpl. split; [discriminate | intros (n & H & _); lia].
  - cbn [redraw_loop]. destruct (dl i) as [d|] eqn:E.
    + rewrite IH. split.
      * intros (n & Hn & Hend & Hshown & ->).
        exists (S n). split; [lia|]. split; [rewrite round_index_succ; exact Hend|].
        split.
        -- intros [|k] Hk; [cbn; rewrite E; discriminate|].
           rewrite round_index_succ. apply Hshown. lia.
        -- cbn [seq map]. rewrite <- seq_shift, map_map, <- app_assoc.
           cbn [app]. f_equal. f_equal.
           ++ unfold round_label. cbn. rewrite E. reflexivity.
           ++ apply map_ext. intros k. symmetry. apply round_label_succ.
      * intros (n & Hn & Hend & Hshown & ->).
        destruct n as [|n]; [cbn in Hend; congruence|].
        exists n. split; [lia|]. split; [rewrite <- round_index_succ; exact Hend|].
        split.
        -- intros k Hk. rewrite <- round_index_succ. apply Hshown. lia.
        -- cbn [seq map]. rewrite <- seq_shift, map_map, <- app_assoc.
           cbn [app]. f_equal. f_equal.
           ++ unfold round_label. cbn. rewrite E. reflexivity.
           ++ apply map_ext. intros k. apply round_label_succ.
    + split.
      * intros [= <-]. exists 0%nat. split; [lia|]. split; [exact E|].
        split; [intros k Hk; lia|]. cbn. rewrite app_nil_r. reflexivity.
      * intros (n & Hn & Hend & Hshown & ->).
        destruct n as [|n]; [cbn; rewrite app_nil_r; reflexivity|].
        exfalso. apply (Hshown 0%nat); [lia | exact E].
Qed.

(** [redraw] returns exactly when, within the rounds it is given, the
    loop reaches an index for which [dlineinfo] answers None: it has no
    other way out.  The canvas then holds one label for each index
    before that one, in the order of the rounds, and nothing of what it
    held before: redrawing replaces the labels. *)
Theorem redraw_labels
        (first : tk_index) (dl : tk_index -> option dline)
        (plus : tk_index -> tk_index) (fuel : nat) (canvas c : list Label) :
  redraw first dl plus fuel canvas = Some c <->
  exists n : nat,
    (n < fuel)%nat
    /\ dl (round_index first plus n) = None
    /\ (forall k, (k < n)%nat -> dl (round_index first plus k) <> None)
    /\ c = map (round_label first dl plus) (seq 0 n).
Proof. unfold redraw. apply redraw_loop_some. Qed.

Lemma redraw_labels_witness :
  redraw view_first view_dlineinfo view_plus_1line 10
         [mkLabel 2 3 "1" 10; mkLabel 2 20 "2" 10]
  = Some [mkLabel 2 3 "2" 10; mkLabel 2 20 "3" 10; mkLabel 2 37 "4" 10].
Proof.
  apply (redraw_labels view_first view_dlineinfo view_plus_1line 10).
  exists 3%nat. split; [lia|]. split; [reflexivity|]. split; [|reflexivity].
  intros [|[|[|k]]] Hk; try lia; discriminate.
Defined.

Lemma line_label_small_font_witness :
  label_size (line_label (Nat.pow 10 4, 0%nat) (5, 5, 80, 17, 13)) = 7
  /\ label_size (line_label (9%nat, 0%nat) (5, 5, 80, 17, 13)) = 10.
Proof.
  split.
  - apply (line_label_small_font (Nat.pow 10 4, 0%nat) (5, 5, 80, 17, 13)).
    apply Nat.le_refl.
  - apply (line_label_small_font (9%nat, 0%nat) (5, 5, 80, 17, 13)).
    cbn. lia.
Defined.

(** ** Bounds every call keeps *)

Lemma do_op_bounds (cf : Conf) (o : op) (tb : Textbox) :
  0 <= stackcursor tb <= 9
  /\ maxlen (stack tb) = max_undo cf
  /\ (List.length (items (stack tb)) <= max_undo cf)%nat ->
  0 <= stackcursor (exec (do_op Textbox_class o) tb) <= 9
  /\ maxlen (stack (exec (do_op Textbox_class o) tb)) = max_undo cf
  /\ (List.length (items (stack (exec (do_op Textbox_class o) tb))) <= max_undo cf)%nat.
Proof.
  intros (Hc & Hm & Hl). destruct o as [s| | |]; cbn [do_op].
  - unfold exec, modify. simpl. auto.
  - rewrite stackify_cursor, stackify_stack, deque_append_maxlen.
    pose proof (deque_append_bounded (stack tb) (text tb)) as B.
    rewrite deque_append_maxlen, Hm in B.
    destruct (Z.ltb_spec (stackcursor tb) 9); repeat split; try lia;
      try exact Hm; apply B; exact Hl.
  - rewrite undo_Textbox_state. auto.
  - rewrite redo_Textbox_state. auto.
Qed.

(** Whatever the capacity, in every state reachable from a new widget
    the stack holds at most [cf.max_undo] snapshots, its bound is the
    one it was made with, and the cursor lies between 0 and 9. *)
Theorem stack_never_exceeds_max_undo (cf : Conf) (tb : Textbox) :
  reachable cf tb ->
  (List.length (items (stack tb)) <= max_undo cf)%nat
  /\ maxlen (stack tb) = max_undo cf
  /\ 0 <= stackcursor tb <= 9.
Proof.
  intros [ops <-].
  assert (G : forall tb0 : Textbox,
             0 <= stackcursor tb0 <= 9
             /\ maxlen (stack tb0) = max_undo cf
             /\ (List.length (items (stack tb0)) <= max_undo cf)%nat ->
             0 <= stackcursor (snd (run Textbox_class ops tb0)) <= 9
             /\ maxlen (stack (snd (run Textbox_class ops tb0))) = max_undo cf
             /\ (List.length (items (stack (snd (run Textbox_class ops tb0))))
                 <= max_undo cf)%nat).
  { induction ops as [|o ops IH]; intros tb0 H; [exact H|].
    rewrite run_cons. apply IH. apply do_op_bounds. exact H. }
  destruct (G (Textbox_init cf)) as (A & B & C).
  - simpl. repeat split; lia.
  - auto.
Qed.

Lemma stack_never_exceeds_max_undo_witness :
  (List.length (items (stack (snd (run Textbox_class
                                       (recording ["a"; "ab"; "abc"; "abcd"; "abcde"])
                                       (Textbox_init cf3)))))
   <= 3)%nat.
Proof.
  apply (stack_never_exceeds_max_undo cf3).
  exists (recording ["a"; "ab"; "abc"; "abcd"; "abcde"]). reflexivity.
Defined.

(** ** The line of the insertion cursor *)

Lemma until_newline_no_newline (l : list ascii) :
  forallb (fun c => negb (is_newline c)) (until_newline l) = true.
Proof.
  induction l as [|c l IH]; simpl; [reflexivity|].
  destruct (is_newline c) eqn:E; simpl; [reflexivity|]. rewrite E. exact IH.
Qed.

Lemma until_newline_split (l : list ascii) :
  existsb is_newline l = true ->
  exists rest, l = until_newline l ++ ascii_of_nat 10 :: rest.
Proof.
  induction l as [|c l IH]; simpl; [discriminate|].
  destruct (is_newline c) eqn:E; simpl.
  - intros _. exists l. apply Ascii.eqb_eq in E. subst c. reflexivity.
  - intros H. destruct (IH H) as [rest Hr]. exists rest. rewrite <- Hr. reflexivity.
Qed.

Lemma until_newline_prefix (l : list ascii) :
  exists rest,
    l = until_newline l ++ rest
    /\ (rest = [] \/ exists rest', rest = ascii_of_nat 10 :: rest').
Proof.
  induction l as [|c l IH]; simpl; [exists []; auto|].
  destruct (is_newline c) eqn:E; simpl.
  - exists (c :: l). split; [reflexivity|]. right. exists l.
    apply Ascii.eqb_eq in E. subst c. reflexivity.
  - destruct IH as (rest & Hr & Hcase). exists rest. rewrite <- Hr. auto.
Qed.

Lemma after_newline_suffix (l : list ascii) :
  exists front,
    l = front ++ after_newline l
    /\ (front = [] \/ exists front', front = front' ++ [ascii_of_nat 10]).
Proof.
  unfold after_newline.
  destruct (until_newline_prefix (rev l)) as (rest & Hr & Hcase).
  exists (rev rest). split.
  - rewrite <- rev_app_distr, <- Hr, rev_involutive. reflexivity.
  - destruct Hcase as [-> | [rest' ->]]; [left; reflexivity|].
    right. exists (rev rest'). reflexivity.
Qed.

Lemma forallb_rev {A : Type} (f : A -> bool) (l : list A) :
  forallb f (rev l) = forallb f l.
Proof.
  induction l as [|a l IH]; simpl; [reflexivity|].
  rewrite forallb_app, IH. simpl. rewrite andb_true_r. apply andb_comm.
Qed.

Lemma chars_end (w : Cursored) :
  chars w = list_ascii_of_string (text (cur_box w)) ++ [ascii_of_nat 10].
Proof.
  unfold chars. generalize (text (cur_box w)) as s.
  induction s as [|c s IH]; simpl; [reflexivity | rewrite IH; reflexivity].
Qed.

Lemma length_list_ascii (s : string) :
  List.length (list_ascii_of_string s) = String.length s.
Proof. induction s as [|c s IH]; simpl; [reflexivity | rewrite IH; reflexivity]. Qed.

(** [get_current_line_text] raises nothing and changes nothing.  What
    it answers holds no newline: it is the line of the mark without the
    newline that ends it (the docstring of the method says that the
    newline is included).  The content is a front that is empty or ends
    in a newline, then the answer, then a newline, then the rest, and
    the mark lies within the answer or at its end. *)
Theorem current_line_without_newline (w : Cursored) :
  (insert_mark w <= String.length (text (cur_box w)))%nat ->
  exists line : string,
    get_current_line_text w = (Ok line, w)
    /\ forallb (fun c => negb (is_newline c)) (list_ascii_of_string line) = true
    /\ exists front rest : list ascii,
        chars w = front ++ list_ascii_of_string line ++ ascii_of_nat 10 :: rest
        /\ (front = [] \/ exists front', front = front' ++ [ascii_of_nat 10])
        /\ (List.length front <= insert_mark w
            <= List.length front + String.length line)%nat.
Proof.
  intros Hi. unfold get_current_line_text, gets.
  set (i := insert_mark w) in *.
  set (before := firstn i (chars w)).
  set (behind := skipn i (chars w)).
  eexists. split; [reflexivity|].
  rewrite list_ascii_of_string_of_list_ascii.
  split.
  - rewrite forallb_app. unfold after_newline.
    rewrite forallb_rev, !until_newline_no_newline. reflexivity.
  - destruct (after_newline_suffix before) as (front & Hf & Hcase).
    assert (Hn : existsb is_newline behind = true).
    { subst behind. rewrite chars_end, skipn_app, existsb_app.
      rewrite length_list_ascii.
      replace (i - String.length (text (cur_box w)))%nat with 0%nat by lia.
      simpl. apply orb_true_r. }
    destruct (until_newline_split behind Hn) as (rest & Hr).
    exists front, rest. split; [|split; [exact Hcase|]].
    + rewrite <- (firstn_skipn i (chars w)). fold before behind.
      rewrite Hf at 1. rewrite Hr at 1. rewrite <- !app_assoc. reflexivity.
    + assert (Lb : List.length before = i).
      { subst before. rewrite length_firstn, chars_end, length_app,
          length_list_ascii. simpl. lia. }
      rewrite Hf, length_app in Lb.
      rewrite <- length_list_ascii, list_ascii_of_string_of_list_ascii, length_app.
      lia.
Qed.

Lemma current_line_without_newline_witness :
  outcome get_current_line_text cursor_in_second_line = Ok "cdef".
Proof.
  destruct (current_line_without_newline cursor_in_second_line) as (l & Hl & _);
    [vm_compute; lia|].
  reflexivity.
Defined.

(** ** The round trip of undo and redo *)


